(** * Account service (app.js): validation, authentication and store transitions

    A shallow embedding of the request handlers of [app.js] and the
    properties of the account life cycle.

    Conventions of the embedding.
    - A JavaScript string is the list of its UTF-16 code units.
    - A JavaScript number is carried by its canonical rendering (the result
      of [String(n)]).  Two numbers have the same rendering exactly when
      [Map] treats them as the same key (SameValueZero: [+0] and [-0] both
      render as [0], [NaN] equals itself), and the rendering is all the
      handlers ever observe of a number.
    - [undefined] is [None] in [jsval := option json]; a parsed JSON body
      never holds [undefined] under a key.
    - Each handler runs from its first statement to its response without
      another handler touching the store in between, so a handler is a
      function from the store to a result and a new store. *)

From Stdlib Require Import ssreflect.
From stdpp Require Import gmap strings list.

#[local] Set Warnings "-register-all,-rewrite-rw".
#[local] Set Default Proof Using "Type".

(** ** Strings *)

Abbreviation jsstring := (list N).

(** The code units of an ASCII literal. *)
Definition lit (s : string) : jsstring :=
  map Ascii.N_of_ascii (String.list_ascii_of_string s).

(** ** JSON values *)

Inductive json : Type :=
  | JNull
  | JBool (b : bool)
  | JNum (repr : jsstring)
  | JStr (s : jsstring)
  | JArr (elems : list json)
  | JObj (props : gmap jsstring json).

Abbreviation jsval := (option json).

(** ** Results of evaluating an expression that may throw *)

Inductive outcome (A : Type) : Type :=
  | Ok (a : A)
  | Throw.
Arguments Ok {A} a.
Arguments Throw {A}.

Definition out_bind {A B} (m : outcome A) (k : A → outcome B) : outcome B :=
  match m with
  | Ok a => k a
  | Throw => Throw
  end.

Definition out_map {A B} (f : A → B) (m : outcome A) : outcome B :=
  out_bind m (λ a, Ok (f a)).

(** [a || b] where both sides may throw and [b] is evaluated only when [a]
    is false. *)
Definition lazy_or (a b : outcome bool) : outcome bool :=
  out_bind a (λ x, if x then Ok true else b).

Notation "a ||| b" := (lazy_or a b) (at level 50, left associativity).

(** ** Coercions of the language *)

(** ToBoolean. *)
Definition truthy (v : json) : bool :=
  match v with
  | JNull => false
  | JBool b => b
  | JNum r => negb (bool_decide (r = lit "0")) && negb (bool_decide (r = lit "NaN"))
  | JStr s => negb (bool_decide (s = []))
  | JArr _ => true
  | JObj _ => true
  end.

Fixpoint join (sep : jsstring) (parts : list jsstring) : jsstring :=
  match parts with
  | [] => []
  | [p] => p
  | p :: rest => p ++ sep ++ join sep rest
  end.

Fixpoint sequence {A} (l : list (outcome A)) : outcome (list A) :=
  match l with
  | [] => Ok []
  | x :: rest => out_bind x (λ a, out_map (cons a) (sequence rest))
  end.

(** ToString.  An array is joined with commas, [null] elements giving the
    empty string.  A parsed object renders as [[object Object]] unless it
    has an own [toString] property: that property is not callable, the
    inherited [valueOf] returns the object itself, and the conversion
    throws a TypeError. *)
Fixpoint to_string (v : json) : outcome jsstring :=
  match v with
  | JNull => Ok (lit "null")
  | JBool true => Ok (lit "true")
  | JBool false => Ok (lit "false")
  | JNum r => Ok r
  | JStr s => Ok s
  | JArr elems =>
      out_map (join (lit ","))
        (sequence (map (λ e, match e with
                             | JNull => Ok []
                             | _ => to_string e
                             end) elems))
  | JObj props =>
      match props !! lit "toString" with
      | Some _ => Throw
      | None => Ok (lit "[object Object]")
      end
  end.

(** ** The regular expressions of the validation helpers

    None of them carries a flag, so each class is matched code unit by code
    unit and [$] only matches at the end of the input. *)

Definition in_range (lo hi c : N) : bool := (lo <=? c)%N && (c <=? hi)%N.

(** [[A-Za-z0-9]] *)
Definition alnum (c : N) : bool :=
  in_range 65 90 c || in_range 97 122 c || in_range 48 57 c.

(** [[\x21-\x7E]] *)
Definition visible (c : N) : bool := in_range 33 126 c.

(** [[\x00-\x1F\x7F]] *)
Definition ctrl (c : N) : bool := in_range 0 31 c || (c =? 127)%N.

Definition between (lo hi n : nat) : bool := (lo <=? n)%nat && (n <=? hi)%nat.

(** [/^[A-Za-z0-9]{6,20}$/.test(s)]: [test] converts its argument to a
    string first. *)
Definition isValidUserId (s : json) : outcome bool :=
  out_map (λ t, forallb alnum t && between 6 20 (length t)) (to_string s).

(** [/^[\x21-\x7E]{8,20}$/.test(s)] *)
Definition isValidPassword (s : json) : outcome bool :=
  out_map (λ t, forallb visible t && between 8 20 (length t)) (to_string s).

(** [/^[^\x00-\x1F\x7F]*$/.test(s)], only ever applied to a string. *)
Definition noCtrl (s : jsstring) : bool := forallb (λ c, negb (ctrl c)) s.

(** ** The store *)

(** A key of [users].  Only strings and numbers get as far as [users.has]
    (see [checked_user_id_key] below); [Map] never identifies a string with a
    number. *)
Inductive key : Type :=
  | KStr (s : jsstring)
  | KNum (repr : jsstring).

#[global] Instance key_eq_dec : EqDecision key.
Proof. solve_decision. Defined.

#[global] Instance key_countable : Countable key.
Proof.
  refine (inj_countable'
    (λ k, match k with KStr s => inl s | KNum r => inr r end)
    (λ x, match x with inl s => KStr s | inr r => KNum r end) _).
  by intros [].
Defined.

Definition key_json (k : key) : json :=
  match k with
  | KStr s => JStr s
  | KNum r => JNum r
  end.

Definition map_key (v : json) : option key :=
  match v with
  | JStr s => Some (KStr s)
  | JNum r => Some (KNum r)
  | _ => None
  end.

(** [{ user_id, passwordHash, nickname?, comment? }] *)
Record user : Type := User {
  user_id : key;
  passwordHash : jsstring;
  nickname : jsval;
  comment : jsval;
}.

Abbreviation store := (gmap key user).

(** ** Responses *)

(** The [user] object of a response body; [view_comment = None] means the
    object has no [comment] property. *)
Record user_view : Type := UserView {
  view_user_id : json;
  view_nickname : json;
  view_comment : option json;
}.

(** [res.status(status).json({ message, cause?, user? })] *)
Record response : Type := Response {
  status : nat;
  message : string;
  cause : option string;
  res_user : option user_view;
}.

(** What a handler does with a request: it sends a response, or an error
    escapes it and the handler itself sends nothing. *)
Inductive result : Type :=
  | Respond (r : response)
  | Unhandled.

Definition reply (st : nat) (msg : string) : result :=
  Respond (Response st msg None None).

Definition reply_cause (st : nat) (msg why : string) : result :=
  Respond (Response st msg (Some why) None).

Definition reply_user (st : nat) (msg : string) (v : user_view) : result :=
  Respond (Response st msg None (Some v)).

(** ** Request bodies *)

(** [req.body || {}] *)
Definition body_or_empty (body : jsval) : json :=
  match body with
  | Some b => if truthy b then b else JObj ∅
  | None => JObj ∅
  end.

(** Reading one of the properties [user_id], [password], [nickname],
    [comment]: only a parsed object can have one of these. *)
Definition prop (o : json) (name : string) : jsval :=
  match o with
  | JObj props => props !! lit name
  | _ => None
  end.

(** [Object.prototype.hasOwnProperty.call(o, name)] for the same names. *)
Definition hasOwnProperty (o : json) (name : string) : bool :=
  match o with
  | JObj props => bool_decide (is_Some (props !! lit name))
  | _ => false
  end.

(** [a ?? b] *)
Definition nullish (a : jsval) (b : json) : json :=
  match a with
  | None | Some JNull => b
  | Some v => v
  end.

(** [v === ""] *)
Definition is_empty_string (v : jsval) : bool :=
  match v with
  | Some (JStr []) => true
  | _ => false
  end.

(** ** Authorization headers *)

(** [\s], which is also what [trim] removes. *)
Definition is_space (c : N) : bool :=
  in_range 9 13 c || (c =? 32)%N || (c =? 160)%N || (c =? 5760)%N
  || in_range 8192 8202 c || (c =? 8232)%N || (c =? 8233)%N
  || (c =? 8239)%N || (c =? 8287)%N || (c =? 12288)%N || (c =? 65279)%N.

Fixpoint drop_space (s : jsstring) : jsstring :=
  match s with
  | c :: rest => if is_space c then drop_space rest else s
  | [] => []
  end.

Definition trim (s : jsstring) : jsstring :=
  reverse (drop_space (reverse (drop_space s))).

Definition to_lower (c : N) : N :=
  if in_range 65 90 c then (c + 32)%N else c.

(** [/^Basic\s*/i.test(h)] *)
Definition basic_form (h : jsstring) : bool :=
  bool_decide (map to_lower (take 5 h) = lit "basic").

(** [s.indexOf(c)], with [None] for [-1]. *)
Fixpoint indexOf (c : N) (s : jsstring) : option nat :=
  match s with
  | [] => None
  | x :: rest => if (x =? c)%N then Some 0%nat else S <$> indexOf c rest
  end.

Record credentials : Type := Credentials {
  cred_user_id : jsstring;
  cred_password : jsstring;
}.

(** ** Reference instances of the runtime services

    The handlers below take the password hasher, the base64 decoder and the
    relational operators on parsed values as parameters.  The instances
    here are used to run the handlers on concrete requests. *)

Module Sample.

(** The value of a character of the base64 alphabet. *)
Definition b64_digit (c : N) : option N :=
  if in_range 65 90 c then Some (c - 65)%N
  else if in_range 97 122 c then Some (c - 71)%N
  else if in_range 48 57 c then Some (c + 4)%N
  else if (c =? 43)%N then Some 62%N
  else if (c =? 47)%N then Some 63%N
  else None.

(** The bytes of a run of 6-bit digits, four digits giving three bytes. *)
Fixpoint b64_bytes (ds : list N) : list N :=
  match ds with
  | a :: b :: c :: d :: rest =>
      let w := (a * 262144 + b * 4096 + c * 64 + d)%N in
      (w / 65536)%N :: ((w / 256) mod 256)%N :: (w mod 256)%N
        :: b64_bytes rest
  | [a; b; c] =>
      let w := (a * 4096 + b * 64 + c)%N in
      [(w / 1024)%N; ((w / 4) mod 256)%N]
  | [a; b] => [((a * 64 + b) / 16)%N]
  | _ => []
  end.

(** A base64 decoder for payloads whose bytes are ASCII, each byte then
    being one code unit of the decoded text; padding and characters
    outside the alphabet are skipped. *)
Definition base64_ascii (b64 : jsstring) : jsstring :=
  b64_bytes (omap b64_digit b64).

(** A stand-in for the password hasher: the salt followed by the
    password.  It verifies what it hashed, and is not a hash. *)
Definition plain_hash (salt p : jsstring) : jsstring := salt ++ p.

Definition plain_compare (p h : jsstring) : bool :=
  bool_decide (drop (length h - length p) h = p).

(** Relational operators that answer as for [NaN]. *)
Definition never (_ : json) (_ : nat) : outcome bool := Ok false.

Definition object (props : list (string * json)) : jsval :=
  Some (JObj (list_to_map (prod_map lit id <$> props))).

Definition str (s : string) : json := JStr (lit s).

(** [Basic base64("validUser1:Passw0rd!")] *)
Definition validUser1_header : option jsstring :=
  Some (lit "Basic dmFsaWRVc2VyMTpQYXNzdzByZCE=").

Definition salt : jsstring := lit "c2FsdA".

(** Request bodies. *)
Definition signup_body : jsval :=
  object [("user_id", str "validUser1"); ("password", str "Passw0rd!")].

Definition signup_body_nickname : jsval :=
  object [("user_id", str "validUser1"); ("password", str "Passw0rd!");
          ("nickname", str "Val")].

Definition short_id_body : jsval :=
  object [("user_id", str "abcde"); ("password", str "Passw0rd!")].

Definition long_id_body : jsval :=
  object [("user_id", str "abcdefghijklmnopqrstu");
          ("password", str "Passw0rd!")].

Definition spaced_id_body : jsval :=
  object [("user_id", str "abc 123456"); ("password", str "Passw0rd!")].

Definition forbidden_body : jsval := object [("user_id", JNull)].

Definition empty_body : jsval := object [].

Definition nickname_body (s : jsstring) : jsval :=
  Some (JObj {[ lit "nickname" := JStr s ]}).

(** The response to the signup of [validUser1] and the record it
    stores. *)
Definition created : response :=
  Response 200 "Account successfully created" None
    (Some (UserView (str "validUser1") (str "validUser1") None)).

Definition validUser1 : user :=
  User (KStr (lit "validUser1")) (plain_hash salt (lit "Passw0rd!"))
    (Some (str "validUser1")) (Some JNull).


(** More requests. *)

(** [Basic base64("TaroYamada:PaSSwd4TY")], the reserved user. *)
Definition TaroYamada_header : option jsstring :=
  Some (lit "Basic VGFyb1lhbWFkYTpQYVNTd2Q0VFk=").

(** The record the seeding stores. *)
Definition TaroYamada : user :=
  User (KStr (lit "TaroYamada")) (plain_hash salt (lit "PaSSwd4TY"))
    (Some (str "TaroYamada")) (Some (JStr [])).

(** A password with a colon, and [Basic base64("validUser1:Pass:w0rd!")]. *)
Definition colon_body : jsval :=
  object [("user_id", str "validUser1"); ("password", str "Pass:w0rd!")].

Definition colon_header : jsstring :=
  lit "Basic dmFsaWRVc2VyMTpQYXNzOncwcmQh".

(** A [user_id] submitted as the number 123456. *)
Definition number_body : jsval :=
  object [("user_id", JNum (lit "123456")); ("password", str "Passw0rd!")].

(** A nickname that is a number and a comment with a line break, both of
    which an update refuses. *)
Definition unchecked_body : jsval :=
  object [("user_id", str "validUser1"); ("password", str "Passw0rd!");
          ("nickname", JNum (lit "42"));
          ("comment", JStr (lit "a" ++ [10%N] ++ lit "b"))].

Definition both_body : jsval :=
  object [("nickname", str "Bob"); ("comment", JStr [])].

Definition array_body : jsval := Some (JArr [JNull]).

(** Passwords that break a rule. *)
Definition short_password_body : jsval :=
  object [("user_id", str "abc 123456"); ("password", str "short")].

Definition spaced_password_body : jsval :=
  object [("user_id", str "validUser1"); ("password", str "Pass w0rd!")].

Definition null_password_body : jsval :=
  object [("user_id", str "validUser1"); ("password", JNull)].

End Sample.

(** ** The handlers *)

Section AccountService.

(** The password hasher (the [bcrypt] package).  [bcrypt_hash salt p] is
    the hash [bcrypt.hash(p, 10)] produces when it draws [salt];
    [bcrypt_compare p h] is [bcrypt.compare(p, h)]. *)
Variable bcrypt_hash : jsstring → jsstring → jsstring.
Variable bcrypt_compare : jsstring → jsstring → bool.

(** [Buffer.from(b64, "base64").toString("utf8")]: defined on every
    string, characters outside the alphabet being skipped. *)
Variable base64_utf8 : jsstring → jsstring.

(** The relational operators [v < n] and [v > n] of the language for an
    arbitrary parsed value [v], needed only when a submitted object
    carries a [length] property of its own. *)
Variable js_lt : json → nat → outcome bool.
Variable js_gt : json → nat → outcome bool.

(** [v.length < n] and [v.length > n].  Numbers and booleans have no
    [length], and a comparison with [undefined] is false. *)
Definition length_lt (v : json) (n : nat) : outcome bool :=
  match v with
  | JStr s => Ok (length s <? n)%nat
  | JArr elems => Ok (length elems <? n)%nat
  | JObj props =>
      match props !! lit "length" with
      | Some l => js_lt l n
      | None => Ok false
      end
  | JNum _ | JBool _ => Ok false
  | JNull => Throw
  end.

Definition length_gt (v : json) (n : nat) : outcome bool :=
  match v with
  | JStr s => Ok (n <? length s)%nat
  | JArr elems => Ok (n <? length elems)%nat
  | JObj props =>
      match props !! lit "length" with
      | Some l => js_gt l n
      | None => Ok false
      end
  | JNum _ | JBool _ => Ok false
  | JNull => Throw
  end.

(** *** Basic authentication *)

Definition parseBasicAuth (authorization : option jsstring)
    : option credentials :=
  let h := default [] authorization in
  if negb (basic_form h) then None
  else
    let b64 := trim (drop_space (drop 5 h)) in
    let raw := base64_utf8 b64 in
    match indexOf 58 raw with
    | None => None
    | Some idx =>
        Some (Credentials (take idx raw) (drop (S idx) raw))
    end.

(** [Some u] stands for [{ ok: true, user: u }], [None] for
    [{ ok: false }]. *)
Definition authUserAsync (authorization : option jsstring) (users : store)
    : option user :=
  match parseBasicAuth authorization with
  | None => None
  | Some cred =>
      match users !! KStr (cred_user_id cred) with
      | None => None
      | Some u =>
          if bcrypt_compare (cred_password cred) (passwordHash u)
          then Some u else None
      end
  end.

(** *** POST /signup *)

(** The four rejections of signup, in the order of the handler. *)
Definition required_missing (uid pwd : jsval) : bool :=
  negb (from_option truthy false uid) || negb (from_option truthy false pwd).

Definition length_incorrect (uid pwd : json) : outcome bool :=
  length_lt uid 6 ||| length_gt uid 20
  ||| length_lt pwd 8 ||| length_gt pwd 20.

Definition pattern_incorrect (uid pwd : json) : outcome bool :=
  out_map negb (isValidUserId uid) ||| out_map negb (isValidPassword pwd).

Definition creation_failed (why : string) : result :=
  reply_cause 400 "Account creation failed" why.

(** The handler.  [undefined] is falsy, so a body without [user_id] or
    without [password] fails the first test.  Nothing is sent, and the
    store is not written, when a conversion throws and when [bcrypt.hash]
    rejects a password that is not a string; the branch where the checked
    [user_id] has no key is not reached ([checked_user_id_key]). *)
Definition signup (salt : jsstring) (body : jsval) (users : store)
    : result * store :=
  let b := body_or_empty body in
  let nickname_in := prop b "nickname" in
  let comment_in := prop b "comment" in
  match prop b "user_id", prop b "password" with
  | Some uid, Some pwd =>
      if required_missing (Some uid) (Some pwd) then
        (creation_failed "Required user_id and password", users)
      else
        match length_incorrect uid pwd with
        | Throw => (Unhandled, users)
        | Ok true => (creation_failed "Input length is incorrect", users)
        | Ok false =>
            match pattern_incorrect uid pwd with
            | Throw => (Unhandled, users)
            | Ok true =>
                (creation_failed "Incorrect character pattern", users)
            | Ok false =>
                match map_key uid with
                | None => (Unhandled, users)
                | Some k =>
                    if bool_decide (is_Some (users !! k)) then
                      (creation_failed "Already same user_id is used", users)
                    else
                      match pwd with
                      | JStr p =>
                          let u :=
                            User k (bcrypt_hash salt p)
                              (Some (nullish nickname_in uid))
                              (Some (nullish comment_in JNull)) in
                          (reply_user 200 "Account successfully created"
                             (UserView uid uid None),
                           <[k := u]> users)
                      | _ => (Unhandled, users)
                      end
                end
            end
        end
  | _, _ => (creation_failed "Required user_id and password", users)
  end.

(** *** GET /users/:user_id *)

(** [u.nickname === undefined || u.nickname === "" ? u.user_id : u.nickname] *)
Definition effective_nickname (u : user) : json :=
  match nickname u with
  | None => key_json (user_id u)
  | Some n => if is_empty_string (Some n) then key_json (user_id u) else n
  end.

(** The [comment] property the retrieval adds to the body, if any. *)
Definition retrieved_comment (u : user) : option json :=
  match comment u with
  | None => None
  | Some c => if is_empty_string (Some c) then None else Some c
  end.

Definition auth_failed : result := reply 401 "Authentication failed".

Definition get_user (authorization : option jsstring) (path_id : jsstring)
    (users : store) : result * store :=
  match authUserAsync authorization users with
  | None => (auth_failed, users)
  | Some _ =>
      match users !! KStr path_id with
      | None => (reply 404 "No user found", users)
      | Some u =>
          (reply_user 200 "User details by user_id"
             (UserView (key_json (user_id u)) (effective_nickname u)
                (retrieved_comment u)),
           users)
      end
  end.

(** *** PATCH /users/:user_id *)

Definition updation_failed (why : string) : result :=
  reply_cause 400 "User updation failed" why.

(** [typeof v !== "string" || (v !== "" && (!noCtrl(v) || v.length > max))] *)
Definition field_invalid (v : jsval) (max : nat) : bool :=
  match v with
  | Some (JStr s) =>
      negb (is_empty_string v) && (negb (noCtrl s) || (max <? length s)%nat)
  | _ => true
  end.

(** [u.nickname = nickname === "" ? u.user_id : nickname] *)
Definition set_nickname (u : user) (nickname_in : jsval) : user :=
  User (user_id u) (passwordHash u)
    (if is_empty_string nickname_in then Some (key_json (user_id u))
     else nickname_in)
    (comment u).

(** [u.comment = comment === "" ? "" : comment] *)
Definition set_comment (u : user) (comment_in : jsval) : user :=
  User (user_id u) (passwordHash u) (nickname u)
    (if is_empty_string comment_in then Some (JStr []) else comment_in).

(** [u.comment === undefined ? "" : u.comment] *)
Definition updated_comment (u : user) : json :=
  match comment u with
  | None => JStr []
  | Some c => c
  end.

(** The two assignments that follow the validation: a field is
    assigned only when the body has its key. *)
Definition apply_update (u : user) (b : json) : user :=
  let u1 := if hasOwnProperty b "nickname"
            then set_nickname u (prop b "nickname") else u in
  if hasOwnProperty b "comment"
  then set_comment u1 (prop b "comment") else u1.

(** The record found under the path is the object the handler mutates;
    no other key of [users] holds that object, so the mutation is the
    replacement of the binding of the path's key. *)
Definition patch_user (authorization : option jsstring) (path_id : jsstring)
    (body : jsval) (users : store) : result * store :=
  match authUserAsync authorization users with
  | None => (auth_failed, users)
  | Some me =>
      match users !! KStr path_id with
      | None => (reply 404 "No user found", users)
      | Some u =>
          if bool_decide (user_id me ≠ KStr path_id) then
            (reply 403 "No permission for update", users)
          else
            let b := body_or_empty body in
            let nickname_in := prop b "nickname" in
            let comment_in := prop b "comment" in
            let uidInBody := prop b "user_id" in
            let pwdInBody := prop b "password" in
            if bool_decide (uidInBody ≠ None)
               || bool_decide (pwdInBody ≠ None) then
              (updation_failed "Not updatable user_id and password", users)
            else
              let hasNickname := hasOwnProperty b "nickname" in
              let hasComment := hasOwnProperty b "comment" in
              if negb hasNickname && negb hasComment then
                (updation_failed "Required nickname or comment", users)
              else if hasNickname && field_invalid nickname_in 30 then
                (updation_failed
                   "String length limit exceeded or containing invalid characters",
                 users)
              else if hasComment && field_invalid comment_in 100 then
                (updation_failed
                   "String length limit exceeded or containing invalid characters",
                 users)
              else
                let u' := apply_update u b in
                (reply_user 200 "User successfully updated"
                   (UserView (key_json (user_id u')) (effective_nickname u')
                      (Some (updated_comment u'))),
                 <[KStr path_id := u']> users)
      end
  end.

(** *** POST /close *)

Definition close (authorization : option jsstring) (users : store)
    : result * store :=
  match authUserAsync authorization users with
  | None => (auth_failed, users)
  | Some me =>
      (reply 200 "Account and user successfully removed",
       delete (user_id me) users)
  end.

(** *** The reserved user, inserted at start-up *)

Definition seedReservedUser (salt : jsstring) (users : store) : store :=
  let uid := lit "TaroYamada" in
  let password := lit "PaSSwd4TY" in
  if bool_decide (is_Some (users !! KStr uid)) then users
  else
    <[KStr uid := User (KStr uid) (bcrypt_hash salt password)
                    (Some (JStr (lit "TaroYamada"))) (Some (JStr []))]> users.

(** *** The service as a transition system *)

Inductive request : Type :=
  | PostSignup (salt : jsstring) (body : jsval)
  | GetUser (authorization : option jsstring) (path_id : jsstring)
  | PatchUser (authorization : option jsstring) (path_id : jsstring)
      (body : jsval)
  | PostClose (authorization : option jsstring).

Definition handle (req : request) (users : store) : result * store :=
  match req with
  | PostSignup salt body => signup salt body users
  | GetUser a p => get_user a p users
  | PatchUser a p body => patch_user a p body users
  | PostClose a => close a users
  end.

(** The stores the process can hold: empty when the module is loaded,
    then changed by the seeding and by the handlers. *)
Inductive reachable : store → Prop :=
  | reach_start : reachable ∅
  | reach_seed salt users :
      reachable users → reachable (seedReservedUser salt users)
  | reach_handle req users :
      reachable users → reachable (handle req users).2.

(** Every record is stored under its own [user_id]. *)
Definition keyed_by_user_id (users : store) : Prop :=
  ∀ k u, users !! k = Some u → user_id u = k.

(** No record has [undefined] as its nickname or as its comment. *)
Definition fields_defined (users : store) : Prop :=
  ∀ k u, users !! k = Some u → is_Some (nickname u) ∧ is_Some (comment u).

(** *** Valid identifiers and passwords *)

(** What [String(user_id)] gives for a key. *)
Definition key_string (k : key) : jsstring :=
  match k with
  | KStr s => s
  | KNum r => r
  end.

(** The two patterns of the validation helpers, on strings. *)
Definition valid_id (s : jsstring) : bool :=
  forallb alnum s && between 6 20 (length s).

Definition valid_password (p : jsstring) : bool :=
  forallb visible p && between 8 20 (length p).

(** Every key of the store renders as 6 to 20 letters and digits. *)
Definition keys_valid (users : store) : Prop :=
  ∀ k u, users !! k = Some u → valid_id (key_string k) = true.

(** ** Properties *)

(** *** Authentication *)

Lemma authUserAsync_Some a users u :
  authUserAsync a users = Some u →
  ∃ cred, parseBasicAuth a = Some cred
          ∧ users !! KStr (cred_user_id cred) = Some u
          ∧ bcrypt_compare (cred_password cred) (passwordHash u) = true.
Proof.
  unfold authUserAsync. intros H.
  destruct (parseBasicAuth a) as [cred|]; [|done].
  destruct (users !! KStr (cred_user_id cred)) as [u'|] eqn:Hu; [|done].
  destruct (bcrypt_compare _ _) eqn:Hc; [|done].
  exists cred. by simplify_eq.
Qed.

Lemma authUserAsync_key a users u :
  keyed_by_user_id users →
  authUserAsync a users = Some u →
  users !! user_id u = Some u.
Proof.
  intros Hk (cred & _ & Hu & _)%authUserAsync_Some.
  by rewrite (Hk _ _ Hu).
Qed.

(** *** Shape of the outcomes of signup *)

Lemma signup_ok_inv salt body users r users' :
  signup salt body users = (Respond r, users') →
  status r = 200%nat →
  ∃ uid p k,
    prop (body_or_empty body) "user_id" = Some uid
    ∧ prop (body_or_empty body) "password" = Some (JStr p)
    ∧ map_key uid = Some k
    ∧ users !! k = None
    ∧ r = Response 200 "Account successfully created" None
            (Some (UserView uid uid None))
    ∧ users' =
        <[k := User k (bcrypt_hash salt p)
                 (Some (nullish (prop (body_or_empty body) "nickname") uid))
                 (Some (nullish (prop (body_or_empty body) "comment") JNull))]>
          users.
Proof.
  unfold signup, creation_failed, reply_cause, reply_user.
  intros H Hst.
  repeat case_match; simplify_eq/=; try done.
  eexists _, _, _. repeat split; try done.
  match goal with
  | H : bool_decide _ = false |- _ =>
      apply bool_decide_eq_false in H; by apply eq_None_not_Some
  end.
Qed.

Lemma signup_store salt body users :
  (signup salt body users).2 = users
  ∨ ∃ k u, users !! k = None ∧ user_id u = k
           ∧ prop (body_or_empty body) "user_id" ≫= map_key = Some k
           ∧ (signup salt body users).2 = <[k := u]> users.
Proof.
  unfold signup, creation_failed, reply_cause, reply_user.
  destruct (prop (body_or_empty body) "user_id") as [uid|]; [|by left].
  destruct (prop (body_or_empty body) "password") as [pwd|]; [|by left].
  destruct (required_missing _ _); [by left|].
  destruct (length_incorrect uid pwd) as [[]|]; try by left.
  destruct (pattern_incorrect uid pwd) as [[]|]; try by left.
  simpl. destruct (map_key uid) as [k|]; [|by left].
  case_bool_decide as Hin; [by left|].
  destruct pwd; try by left.
  right. eexists k, _. repeat split; try done.
  by apply eq_None_not_Some.
Qed.

(** *** Only strings and numbers reach the store *)

Lemma sequence_length {A} (l : list (outcome A)) parts :
  sequence l = Ok parts → length parts = length l.
Proof.
  revert parts. induction l as [|x l IH]; intros parts; simpl.
  - by intros [= <-].
  - destruct x as [a|]; [|done]. simpl.
    destruct (sequence l) as [rest|]; [|done]. simpl.
    intros [= <-]. simpl. by rewrite (IH rest).
Qed.

Lemma join_comma_not_alnum p q rest :
  forallb alnum (join (lit ",") (p :: q :: rest)) = false.
Proof.
  change (join (lit ",") (p :: q :: rest))
    with (p ++ lit "," ++ join (lit ",") (q :: rest)).
  rewrite forallb_app. apply andb_false_iff. by right.
Qed.

(** A [user_id] that passed the length and pattern rules is a string or
    a number, so the branch of [signup] where it has no key is never
    taken. *)
Lemma checked_user_id_key u p :
  length_incorrect u p = Ok false →
  pattern_incorrect u p = Ok false →
  is_Some (map_key u).
Proof.
  unfold length_incorrect, pattern_incorrect, isValidUserId.
  destruct u as [|b|r|s|elems|props]; simpl; try done.
  - by destruct b.
  - destruct (length elems <? 6)%nat eqn:Hlen; [done|].
    apply Nat.ltb_ge in Hlen. intros _.
    destruct (sequence _) as [parts|] eqn:Hparts; [|done].
    apply sequence_length in Hparts. rewrite length_map in Hparts.
    destruct parts as [|a [|b rest]]; simpl in Hparts; try lia.
    simpl. by rewrite join_comma_not_alnum.
  - intros _. by destruct (props !! lit "toString").
Qed.

(** The handler on a body whose [user_id] and [password] are strings. *)
Lemma signup_strings salt body users s p :
  prop (body_or_empty body) "user_id" = Some (JStr s) →
  prop (body_or_empty body) "password" = Some (JStr p) →
  signup salt body users
  = if bool_decide (s = []) || bool_decide (p = []) then
      (creation_failed "Required user_id and password", users)
    else if (length s <? 6)%nat || (20 <? length s)%nat
            || (length p <? 8)%nat || (20 <? length p)%nat then
      (creation_failed "Input length is incorrect", users)
    else if negb (valid_id s) || negb (valid_password p) then
      (creation_failed "Incorrect character pattern", users)
    else if bool_decide (is_Some (users !! KStr s)) then
      (creation_failed "Already same user_id is used", users)
    else
      (reply_user 200 "Account successfully created"
         (UserView (JStr s) (JStr s) None),
       <[KStr s :=
           User (KStr s) (bcrypt_hash salt p)
             (Some (nullish (prop (body_or_empty body) "nickname") (JStr s)))
             (Some (nullish (prop (body_or_empty body) "comment") JNull))]>
         users).
Proof.
  intros Hs Hp. unfold signup. rewrite Hs Hp.
  unfold required_missing, length_incorrect, pattern_incorrect,
    isValidUserId, isValidPassword. simpl.
  fold (valid_id s). fold (valid_password p).
  destruct (bool_decide (s = [])), (bool_decide (p = [])); simpl; try done.
  destruct (length s <? 6)%nat, (20 <? length s)%nat,
    (length p <? 8)%nat, (20 <? length p)%nat; simpl; try done.
  by destruct (valid_id s), (valid_password p).
Qed.

(** *** Signup *)

(** C1. A signup answered with status 200 carries, as the nickname of
    the response's user object, the submitted [user_id]; this is so even
    when the request supplied a nickname of its own (any value other
    than [null]), which is the nickname stored in the new record. *)
Theorem signup_response_nickname_is_user_id salt body users r users' :
  signup salt body users = (Respond r, users') →
  status r = 200%nat →
  ∃ uid k v u,
    prop (body_or_empty body) "user_id" = Some uid
    ∧ res_user r = Some v
    ∧ view_user_id v = uid
    ∧ view_nickname v = uid
    ∧ map_key uid = Some k
    ∧ users' !! k = Some u
    ∧ (∀ nick, prop (body_or_empty body) "nickname" = Some nick →
               nick ≠ JNull → nickname u = Some nick).
Proof.
  intros H Hst.
  destruct (signup_ok_inv _ _ _ _ _ H Hst)
    as (uid & p & k & Hu & _ & Hk & _ & -> & ->).
  eexists uid, k, _, _. repeat split; try done.
  - apply lookup_insert_eq.
  - intros nick -> Hnn. simpl. by destruct nick.
Qed.

(** C3. The rejections of signup come in the order presence, length,
    character pattern, duplicate, and the first rule that fails gives the
    cause.  A [user_id] or a password that is absent or falsy gives
    "Required user_id and password".  For a non-empty string [user_id]
    [s] and a non-empty string password [p]: a length of [s] outside 6 to
    20 or of [p] outside 8 to 20 gives "Input length is incorrect",
    whatever the characters; with both lengths in range, a character of
    [s] that is not a letter or digit or a character of [p] outside
    0x21-0x7E gives "Incorrect character pattern", whether or not [s] is
    in the store; with both patterns met, an [s] that is in the store
    gives "Already same user_id is used", and one that is not is
    accepted.  In particular a string [user_id] of length 5 or 21 with a
    password that is present is rejected for its length, and the
    [user_id] "abc 123456" with a string password of 8 to 20 characters
    is rejected for its characters. *)
Theorem signup_validation_order salt body users :
  let uid := prop (body_or_empty body) "user_id" in
  let pwd := prop (body_or_empty body) "password" in
  (from_option truthy false uid = false
   ∨ from_option truthy false pwd = false →
     signup salt body users
     = (creation_failed "Required user_id and password", users))
  ∧ (∀ s p, uid = Some (JStr s) → pwd = Some (JStr p) → s ≠ [] → p ≠ [] →
       ((length s < 6 ∨ 20 < length s ∨ length p < 8 ∨ 20 < length p)%nat →
          signup salt body users
          = (creation_failed "Input length is incorrect", users))
       ∧ ((6 ≤ length s ≤ 20)%nat → (8 ≤ length p ≤ 20)%nat →
          forallb alnum s = false ∨ forallb visible p = false →
          signup salt body users
          = (creation_failed "Incorrect character pattern", users))
       ∧ ((6 ≤ length s ≤ 20)%nat → (8 ≤ length p ≤ 20)%nat →
          forallb alnum s = true → forallb visible p = true →
          is_Some (users !! KStr s) →
          signup salt body users
          = (creation_failed "Already same user_id is used", users))
       ∧ ((6 ≤ length s ≤ 20)%nat → (8 ≤ length p ≤ 20)%nat →
          forallb alnum s = true → forallb visible p = true →
          users !! KStr s = None →
          ∃ r users', signup salt body users = (Respond r, users')
                      ∧ status r = 200%nat))
  ∧ (∀ s p, uid = Some (JStr s) → pwd = Some p → truthy p = true →
       length s = 5%nat ∨ length s = 21%nat →
       signup salt body users
       = (creation_failed "Input length is incorrect", users))
  ∧ (∀ p, uid = Some (JStr (lit "abc 123456")) → pwd = Some (JStr p) →
       (8 ≤ length p ≤ 20)%nat →
       signup salt body users
       = (creation_failed "Incorrect character pattern", users)).
Proof.
  intros uid pwd.
  assert (∀ s p, uid = Some (JStr s) → pwd = Some (JStr p) →
            s ≠ [] → p ≠ [] →
            (6 ≤ length s ≤ 20)%nat → (8 ≤ length p ≤ 20)%nat →
            signup salt body users
            = if negb (valid_id s) || negb (valid_password p) then
                (creation_failed "Incorrect character pattern", users)
              else if bool_decide (is_Some (users !! KStr s)) then
                (creation_failed "Already same user_id is used", users)
              else
                (reply_user 200 "Account successfully created"
                   (UserView (JStr s) (JStr s) None),
                 <[KStr s :=
                     User (KStr s) (bcrypt_hash salt p)
                       (Some (nullish (prop (body_or_empty body) "nickname")
                                (JStr s)))
                       (Some (nullish (prop (body_or_empty body) "comment")
                                JNull))]>
                   users)) as Hranges.
  { intros s p Hs Hp Hns Hnp Hls Hlp.
    rewrite (signup_strings _ _ _ _ _ Hs Hp).
    rewrite (bool_decide_eq_false_2 (s = [])); [done|].
    rewrite (bool_decide_eq_false_2 (p = [])); [done|]. simpl.
    replace (length s <? 6)%nat with false
      by (symmetry; apply Nat.ltb_ge; lia).
    replace (20 <? length s)%nat with false
      by (symmetry; apply Nat.ltb_ge; lia).
    replace (length p <? 8)%nat with false
      by (symmetry; apply Nat.ltb_ge; lia).
    by replace (20 <? length p)%nat with false
      by (symmetry; apply Nat.ltb_ge; lia). }
  assert (∀ n lo hi, (lo ≤ n ≤ hi)%nat → between lo hi n = true) as Hbetween.
  { intros n lo hi [H1 H2]. unfold between.
    apply andb_true_iff. split; by apply Nat.leb_le. }
  split; [|split; [|split]].
  - unfold signup, required_missing. fold uid pwd.
    destruct uid as [u|], pwd as [p|]; simpl; try done.
    intros [-> | ->]; simpl; [done|]. by rewrite orb_true_r.
  - intros s p Hs Hp Hns Hnp. split; [|split; [|split]].
    + intros Hlen. rewrite (signup_strings _ _ _ _ _ Hs Hp).
      rewrite (bool_decide_eq_false_2 (s = [])); [done|].
      rewrite (bool_decide_eq_false_2 (p = [])); [done|]. simpl.
      assert ((length s <? 6)%nat || (20 <? length s)%nat
              || (length p <? 8)%nat || (20 <? length p)%nat = true) as ->;
        [|done].
      rewrite !orb_true_iff. rewrite !Nat.ltb_lt.
      destruct Hlen as [H|[H|[H|H]]];
        [left; left; left|left; left; right|left; right|right]; done.
    + intros Hls Hlp Hbad. rewrite (Hranges s p Hs Hp Hns Hnp Hls Hlp).
      assert (negb (valid_id s) || negb (valid_password p) = true) as ->;
        [|done].
      unfold valid_id, valid_password.
      destruct Hbad as [-> | ->]; simpl; [done|]. by rewrite orb_true_r.
    + intros Hls Hlp Has Hvp Hin.
      rewrite (Hranges s p Hs Hp Hns Hnp Hls Hlp).
      unfold valid_id, valid_password.
      rewrite Has Hvp (Hbetween _ _ _ Hls) (Hbetween _ _ _ Hlp). simpl.
      by rewrite bool_decide_eq_true_2.
    + intros Hls Hlp Has Hvp Hnone.
      rewrite (Hranges s p Hs Hp Hns Hnp Hls Hlp).
      unfold valid_id, valid_password.
      rewrite Has Hvp (Hbetween _ _ _ Hls) (Hbetween _ _ _ Hlp) Hnone. simpl.
      by eexists _, _.
  - intros s p Hs Hp Htruthy Hlen. unfold signup. fold uid pwd.
    rewrite Hs Hp. unfold required_missing. simpl. rewrite Htruthy.
    assert (negb (bool_decide (s = [])) = true) as ->.
    { apply negb_true_iff, bool_decide_eq_false_2. intros ->.
      simpl in Hlen. lia. }
    simpl. unfold length_incorrect. simpl.
    by destruct Hlen as [-> | ->].
  - intros p Hs Hp Hlp.
    assert (p ≠ []) as Hnp by (intros ->; simpl in Hlp; lia).
    rewrite (Hranges (lit "abc 123456") p Hs Hp); try done.
    simpl. lia.
Qed.

(** *** Retrieval *)

Lemma get_user_found a path users me u :
  authUserAsync a users = Some me →
  users !! KStr path = Some u →
  get_user a path users
  = (reply_user 200 "User details by user_id"
       (UserView (key_json (user_id u)) (effective_nickname u)
          (retrieved_comment u)),
     users).
Proof. intros Ha Hu. unfold get_user. by rewrite Ha Hu. Qed.

(** The retrieval leaves the comment out exactly when the stored comment
    is [undefined] or the empty string. *)
Lemma retrieved_comment_None u :
  retrieved_comment u = None
  ↔ comment u = None ∨ comment u = Some (JStr []).
Proof.
  unfold retrieved_comment.
  destruct (comment u) as [[|b|r|[|x s]|l|m]|]; simpl;
    (split; [intros ?; first [done | by left | by right]
            | intros [?|?]; done]).
Qed.

Lemma retrieved_comment_Some u c :
  retrieved_comment u = Some c
  ↔ comment u = Some c ∧ c ≠ JStr [].
Proof.
  unfold retrieved_comment.
  destruct (comment u) as [[|b|r|[|x s]|l|m]|]; simpl;
    (split; [intros H; simplify_eq; try done; by split
            | intros [H Hne]; simplify_eq; done]).
Qed.

(** C2. After a signup that submitted no comment, the record holds
    [null] as its comment, and an authenticated retrieval of that record
    answers with a user object whose [comment] property is present and
    is [null]. *)
Theorem retrieval_after_signup_emits_null_comment
    salt body users r users' a me path :
  signup salt body users = (Respond r, users') →
  status r = 200%nat →
  prop (body_or_empty body) "comment" = None →
  prop (body_or_empty body) "user_id" = Some (JStr path) →
  authUserAsync a users' = Some me →
  ∃ u v,
    users' !! KStr path = Some u
    ∧ comment u = Some JNull
    ∧ get_user a path users'
      = (reply_user 200 "User details by user_id" v, users')
    ∧ view_comment v = Some JNull.
Proof.
  intros H Hst Hc Hid Ha.
  destruct (signup_ok_inv _ _ _ _ _ H Hst)
    as (uid & p & k & Hu & _ & Hk & _ & _ & ->).
  rewrite Hid in Hu. simplify_eq/=. rewrite Hc in Ha *.
  eexists _, _. split; [apply lookup_insert_eq|]. split; [done|].
  by rewrite (get_user_found _ _ _ _ _ Ha (lookup_insert_eq _ _ _)).
Qed.

(** C7. A retrieval whose [Authorization] header is absent, is not of
    the Basic form, decodes to a text without a colon, names a [user_id]
    that is not in the store, or carries a password the hasher does not
    accept, is answered with 401 and the message "Authentication
    failed", whatever the path, and the store is left as it was. *)
Theorem get_user_unauthenticated a path users :
  a = None
  ∨ (∃ h, a = Some h ∧ basic_form h = false)
  ∨ (∃ h, a = Some h
          ∧ indexOf 58 (base64_utf8 (trim (drop_space (drop 5 h)))) = None)
  ∨ (∃ cred, parseBasicAuth a = Some cred
             ∧ users !! KStr (cred_user_id cred) = None)
  ∨ (∃ cred u, parseBasicAuth a = Some cred
               ∧ users !! KStr (cred_user_id cred) = Some u
               ∧ bcrypt_compare (cred_password cred) (passwordHash u) = false) →
  get_user a path users
  = (Respond (Response 401 "Authentication failed" None None), users).
Proof.
  intros Hcase.
  assert (authUserAsync a users = None) as Hnone.
  { unfold authUserAsync.
    destruct Hcase as [-> | [(h & -> & Hb) | [(h & -> & Hi) |
      [(cred & -> & Hu) | (cred & u & -> & Hu & Hc)]]]].
    - done.
    - unfold parseBasicAuth. simpl. by rewrite Hb.
    - unfold parseBasicAuth. simpl. rewrite Hi. by destruct (basic_form h).
    - by rewrite Hu.
    - by rewrite Hu Hc. }
  unfold get_user. by rewrite Hnone.
Qed.

(** The cases of C7 are all the ways authentication fails. *)
Lemma authUserAsync_None a users :
  authUserAsync a users = None →
  parseBasicAuth a = None
  ∨ (∃ cred, parseBasicAuth a = Some cred
             ∧ users !! KStr (cred_user_id cred) = None)
  ∨ (∃ cred u, parseBasicAuth a = Some cred
               ∧ users !! KStr (cred_user_id cred) = Some u
               ∧ bcrypt_compare (cred_password cred) (passwordHash u) = false).
Proof.
  unfold authUserAsync.
  destruct (parseBasicAuth a) as [cred|]; [|by left].
  destruct (users !! KStr (cred_user_id cred)) as [u|] eqn:Hu;
    [|right; left; by exists cred].
  destruct (bcrypt_compare _ _) eqn:Hc; [done|].
  intros _. right. right. by exists cred, u.
Qed.

Lemma parseBasicAuth_None a :
  parseBasicAuth a = None →
  a = None
  ∨ (∃ h, a = Some h ∧ basic_form h = false)
  ∨ (∃ h, a = Some h
          ∧ indexOf 58 (base64_utf8 (trim (drop_space (drop 5 h)))) = None).
Proof.
  destruct a as [h|]; [|by left]. unfold parseBasicAuth. simpl.
  destruct (basic_form h) eqn:Hb; simpl; [|right; left; by exists h].
  destruct (indexOf _ _) eqn:Hi; [done|].
  intros _. right. right. by exists h.
Qed.

(** *** Update *)

Lemma patch_user_ok_inv a path body users r users' :
  patch_user a path body users = (Respond r, users') →
  status r = 200%nat →
  let b := body_or_empty body in
  ∃ me u,
    authUserAsync a users = Some me
    ∧ users !! KStr path = Some u
    ∧ user_id me = KStr path
    ∧ prop b "user_id" = None ∧ prop b "password" = None
    ∧ (hasOwnProperty b "nickname" = true ∨ hasOwnProperty b "comment" = true)
    ∧ (hasOwnProperty b "nickname" = true →
       field_invalid (prop b "nickname") 30 = false)
    ∧ (hasOwnProperty b "comment" = true →
       field_invalid (prop b "comment") 100 = false)
    ∧ r = Response 200 "User successfully updated" None
            (Some (UserView (key_json (user_id (apply_update u b)))
                     (effective_nickname (apply_update u b))
                     (Some (updated_comment (apply_update u b)))))
    ∧ users' = <[KStr path := apply_update u b]> users.
Proof.
  intros H Hst b. revert H.
  unfold patch_user, updation_failed, auth_failed, reply, reply_cause,
    reply_user.
  fold b. intros H.
  destruct (authUserAsync a users) as [me|]; [|by simplify_eq/=].
  destruct (users !! KStr path) as [u|]; [|by simplify_eq/=].
  destruct (bool_decide (user_id me ≠ KStr path)) eqn:Hown;
    [by simplify_eq/=|].
  destruct (bool_decide (prop b "user_id" ≠ None)) eqn:Huid;
    [by simplify_eq/=|].
  destruct (bool_decide (prop b "password" ≠ None)) eqn:Hpwd;
    [by simplify_eq/=|].
  simpl in H.
  destruct (hasOwnProperty b "nickname") eqn:Hn,
           (hasOwnProperty b "comment") eqn:Hc; simpl in H;
    try (by simplify_eq/=);
    repeat match type of H with
           | context [field_invalid ?v ?n] =>
               destruct (field_invalid v n) eqn:?; simpl in H
           end;
    try (by simplify_eq/=);
    exists me, u; simplify_eq/=;
    apply bool_decide_eq_false in Hown, Huid, Hpwd;
    repeat split; try done;
    try (by destruct (decide (user_id me = KStr path)));
    try (by destruct (prop b "user_id"); [exfalso; apply Huid|]);
    try (by destruct (prop b "password"); [exfalso; apply Hpwd|]);
    auto.
Qed.

(** C4. An update is checked for authentication first (401), then for
    the existence of the record named by the path (404), then for
    ownership (403); an authenticated update of a [user_id] that is not
    in the store is answered with 404. *)
Theorem patch_user_check_order a path body users :
  (authUserAsync a users = None →
     patch_user a path body users
     = (Respond (Response 401 "Authentication failed" None None), users))
  ∧ (∀ me, authUserAsync a users = Some me →
       users !! KStr path = None →
       patch_user a path body users
       = (Respond (Response 404 "No user found" None None), users))
  ∧ (∀ me u, authUserAsync a users = Some me →
       users !! KStr path = Some u →
       user_id me ≠ KStr path →
       patch_user a path body users
       = (Respond (Response 403 "No permission for update" None None),
          users)).
Proof.
  unfold patch_user. repeat split.
  - by intros ->.
  - by intros me -> ->.
  - intros me u -> -> Hne. by rewrite bool_decide_eq_true_2.
Qed.

(** C5. For the authenticated owner of an existing record, a body with
    a [user_id] key or a [password] key is rejected with the cause "Not
    updatable user_id and password", whatever the value under the key
    and whatever else the body holds; a body with none of the keys
    [user_id], [password], [nickname], [comment] is rejected with the
    cause "Required nickname or comment". *)
Theorem patch_user_forbidden_keys_first a path body users me u :
  authUserAsync a users = Some me →
  users !! KStr path = Some u →
  user_id me = KStr path →
  (∀ props, body = Some (JObj props) →
     is_Some (props !! lit "user_id") ∨ is_Some (props !! lit "password") →
     patch_user a path body users
     = (Respond (Response 400 "User updation failed"
                   (Some "Not updatable user_id and password") None),
        users))
  ∧ (prop (body_or_empty body) "user_id" = None →
     prop (body_or_empty body) "password" = None →
     hasOwnProperty (body_or_empty body) "nickname" = false →
     hasOwnProperty (body_or_empty body) "comment" = false →
     patch_user a path body users
     = (Respond (Response 400 "User updation failed"
                   (Some "Required nickname or comment") None),
        users)).
Proof.
  intros Ha Hu Hown. unfold patch_user. rewrite Ha Hu.
  rewrite (bool_decide_eq_false_2 (user_id me ≠ KStr path)); [by intros []|].
  split.
  - intros props -> Hkey. simpl.
    destruct Hkey as [[v Hv] | [v Hv]]; rewrite Hv.
    + by rewrite bool_decide_eq_true_2.
    + rewrite (bool_decide_eq_true_2 (Some v ≠ None)); [done|].
      by rewrite orb_true_r.
  - by intros -> -> -> ->.
Qed.

Lemma hasOwnProperty_prop b name :
  hasOwnProperty b name = true ↔ is_Some (prop b name).
Proof.
  unfold hasOwnProperty, prop. destruct b; try (split; [done|by intros []]).
  apply bool_decide_eq_true.
Qed.

Lemma apply_update_user_id u b : user_id (apply_update u b) = user_id u.
Proof. unfold apply_update. by repeat case_match. Qed.

Lemma apply_update_passwordHash u b :
  passwordHash (apply_update u b) = passwordHash u.
Proof. unfold apply_update. by repeat case_match. Qed.

Lemma apply_update_nickname u b :
  nickname (apply_update u b)
  = match prop b "nickname" with
    | None => nickname u
    | Some (JStr []) => Some (key_json (user_id u))
    | Some v => Some v
    end.
Proof.
  unfold apply_update.
  destruct (hasOwnProperty b "nickname") eqn:Hn.
  - apply hasOwnProperty_prop in Hn as [v Hv]. rewrite Hv.
    destruct (hasOwnProperty b "comment"); simpl;
      by destruct v as [| | |[|]| |].
  - apply not_true_iff_false in Hn. rewrite hasOwnProperty_prop in Hn.
    apply eq_None_not_Some in Hn. rewrite Hn.
    by destruct (hasOwnProperty b "comment").
Qed.

Lemma apply_update_comment u b :
  comment (apply_update u b)
  = match prop b "comment" with
    | None => comment u
    | Some v => Some v
    end.
Proof.
  unfold apply_update.
  destruct (hasOwnProperty b "comment") eqn:Hc.
  - apply hasOwnProperty_prop in Hc as [v Hv]. rewrite Hv. simpl.
    by destruct v as [| | |[|]| |].
  - apply not_true_iff_false in Hc. rewrite hasOwnProperty_prop in Hc.
    apply eq_None_not_Some in Hc. rewrite Hc.
    by destruct (hasOwnProperty b "nickname").
Qed.

(** What a successful update stores and answers.  An empty [nickname]
    resets the stored nickname to the record's [user_id], an empty
    [comment] stores the empty string, any other accepted value is
    stored as it is, a field whose key is absent keeps its value, and
    the response carries the record's [user_id], its effective nickname
    and a [comment] property. *)
Lemma patch_user_ok_fields a path body users r users' :
  patch_user a path body users = (Respond r, users') →
  status r = 200%nat →
  let b := body_or_empty body in
  ∃ u u',
    users !! KStr path = Some u
    ∧ users' !! KStr path = Some u'
    ∧ user_id u' = user_id u
    ∧ passwordHash u' = passwordHash u
    ∧ (prop b "nickname" = Some (JStr []) →
       nickname u' = Some (key_json (user_id u)))
    ∧ (∀ s, prop b "nickname" = Some (JStr s) → s ≠ [] →
       nickname u' = Some (JStr s))
    ∧ (prop b "nickname" = None → nickname u' = nickname u)
    ∧ (∀ s, prop b "comment" = Some (JStr s) → comment u' = Some (JStr s))
    ∧ (prop b "comment" = None → comment u' = comment u)
    ∧ res_user r
      = Some (UserView (key_json (user_id u')) (effective_nickname u')
                (Some (updated_comment u'))).
Proof.
  intros H Hst b.
  destruct (patch_user_ok_inv _ _ _ _ _ _ H Hst)
    as (me & u & _ & Hu & _ & _ & _ & _ & _ & _ & -> & ->).
  fold b. exists u, (apply_update u b).
  rewrite lookup_insert_eq apply_update_user_id apply_update_passwordHash
    apply_update_nickname apply_update_comment.
  repeat split; try done.
  - by intros ->.
  - intros s -> Hs. by destruct s.
  - by intros ->.
  - by intros s ->.
  - by intros ->.
Qed.

(** C6. After a signup that submitted no comment, an accepted update of
    the nickname alone by the owner is answered with status 200 and a
    user object whose [comment] property is [null], not the empty
    string. *)
Theorem update_after_signup_emits_null_comment
    salt body users r users' a me path s :
  signup salt body users = (Respond r, users') →
  status r = 200%nat →
  prop (body_or_empty body) "comment" = None →
  prop (body_or_empty body) "user_id" = Some (JStr path) →
  authUserAsync a users' = Some me →
  user_id me = KStr path →
  field_invalid (Some (JStr s)) 30 = false →
  ∃ v users'',
    patch_user a path (Some (JObj {[ lit "nickname" := JStr s ]})) users'
    = (Respond (Response 200 "User successfully updated" None (Some v)),
       users'')
    ∧ view_comment v = Some JNull.
Proof.
  intros H Hst Hc Hid Ha Hown Hvalid.
  destruct (signup_ok_inv _ _ _ _ _ H Hst)
    as (uid & p & k & Hu & _ & Hk & _ & _ & ->).
  rewrite Hid in Hu. simplify_eq/=. rewrite Hc in Ha *.
  unfold patch_user. rewrite Ha lookup_insert_eq.
  rewrite (bool_decide_eq_false_2 (user_id me ≠ KStr path)); [by intros []|].
  simpl.
  rewrite (lookup_singleton_ne (lit "nickname") (lit "user_id")); [done|].
  rewrite (lookup_singleton_ne (lit "nickname") (lit "password")); [done|].
  rewrite (lookup_singleton_ne (lit "nickname") (lit "comment")); [done|].
  rewrite lookup_singleton_eq. simpl.
  rewrite Hvalid. simpl.
  eexists _, _. split; [done|].
  simpl. unfold updated_comment.
  by rewrite apply_update_comment.
Qed.

(** *** Rejections do not touch the store *)

(** C9. A signup or an update answered with status 400 leaves the store
    as it was. *)
Theorem bad_request_leaves_store :
  (∀ salt body users r users',
     signup salt body users = (Respond r, users') →
     status r = 400%nat → users' = users)
  ∧ (∀ a path body users r users',
       patch_user a path body users = (Respond r, users') →
       status r = 400%nat → users' = users).
Proof.
  split.
  - intros salt body users r users'.
    unfold signup, creation_failed, reply_cause, reply_user.
    repeat case_match; intros; by simplify_eq/=.
  - intros a path body users r users'.
    unfold patch_user, updation_failed, auth_failed, reply, reply_cause,
      reply_user.
    repeat case_match; intros; by simplify_eq/=.
Qed.

(** *** Records are stored under their own [user_id] *)

Lemma keyed_empty : keyed_by_user_id ∅.
Proof. intros k u. by rewrite lookup_empty. Qed.

Lemma keyed_insert users k u :
  keyed_by_user_id users → user_id u = k →
  keyed_by_user_id (<[k := u]> users).
Proof.
  intros Hk Hu k' u'. rewrite lookup_insert.
  case_decide; [|apply Hk]. intros [= <-]. by subst.
Qed.

Lemma keyed_delete users k :
  keyed_by_user_id users → keyed_by_user_id (delete k users).
Proof.
  intros Hk k' u'. rewrite lookup_delete.
  case_decide; [done|apply Hk].
Qed.

Lemma signup_keyed salt body users :
  keyed_by_user_id users → keyed_by_user_id (signup salt body users).2.
Proof.
  intros Hk.
  destruct (signup_store salt body users)
    as [-> | (k & u & _ & Hu & _ & ->)]; [done|].
  by apply keyed_insert.
Qed.

Lemma patch_user_store a path body users :
  (patch_user a path body users).2 = users
  ∨ ∃ u, users !! KStr path = Some u
         ∧ (patch_user a path body users).2
           = <[KStr path := apply_update u (body_or_empty body)]> users.
Proof.
  unfold patch_user.
  destruct (authUserAsync a users) as [me|]; [|by left].
  destruct (users !! KStr path) as [u|]; [|by left].
  repeat case_match; try by left.
  right. by exists u.
Qed.

Lemma patch_user_keyed a path body users :
  keyed_by_user_id users →
  keyed_by_user_id (patch_user a path body users).2.
Proof.
  intros Hk.
  destruct (patch_user_store a path body users) as [-> | (u & Hu & ->)];
    [done|].
  apply keyed_insert; [done|].
  rewrite apply_update_user_id. by apply Hk.
Qed.

Lemma get_user_store a path users : (get_user a path users).2 = users.
Proof. unfold get_user. by repeat case_match. Qed.

Lemma close_keyed a users :
  keyed_by_user_id users → keyed_by_user_id (close a users).2.
Proof.
  intros Hk. unfold close.
  destruct (authUserAsync a users); [|done]. by apply keyed_delete.
Qed.

Lemma seedReservedUser_keyed salt users :
  keyed_by_user_id users → keyed_by_user_id (seedReservedUser salt users).
Proof.
  intros Hk. unfold seedReservedUser.
  case_bool_decide; [done|]. by apply keyed_insert.
Qed.

Lemma handle_keyed req users :
  keyed_by_user_id users → keyed_by_user_id (handle req users).2.
Proof.
  destruct req; simpl;
    auto using signup_keyed, patch_user_keyed, close_keyed.
  by rewrite get_user_store.
Qed.

Lemma reachable_keyed users : reachable users → keyed_by_user_id users.
Proof.
  induction 1;
    auto using keyed_empty, seedReservedUser_keyed, handle_keyed.
Qed.

(** *** No stored field is [undefined] *)

Lemma fields_defined_insert users k u :
  fields_defined users → is_Some (nickname u) → is_Some (comment u) →
  fields_defined (<[k := u]> users).
Proof.
  intros Hd Hn Hc k' u'. rewrite lookup_insert.
  case_decide; [|apply Hd]. by intros [= <-].
Qed.

Lemma signup_fields_defined salt body users :
  fields_defined users → fields_defined (signup salt body users).2.
Proof.
  intros Hd. unfold signup.
  repeat case_match; try done.
  simpl. by apply fields_defined_insert.
Qed.

Lemma patch_user_fields_defined a path body users :
  fields_defined users → fields_defined (patch_user a path body users).2.
Proof.
  intros Hd.
  destruct (patch_user_store a path body users) as [-> | (u & Hu & ->)];
    [done|].
  destruct (Hd _ _ Hu) as [Hn Hc].
  apply fields_defined_insert; [done|..].
  - rewrite apply_update_nickname. by repeat case_match.
  - rewrite apply_update_comment. by case_match.
Qed.

(** In every store the service can hold, the nickname and the comment of
    every record are defined: signup stores [null] for a comment that was
    not submitted, never [undefined]. *)
Lemma reachable_fields_defined users : reachable users → fields_defined users.
Proof.
  induction 1 as [|salt users _ IH|req users _ IH].
  - intros k u. by rewrite lookup_empty.
  - unfold seedReservedUser. case_bool_decide; [done|].
    by apply fields_defined_insert.
  - destruct req; simpl.
    + by apply signup_fields_defined.
    + by rewrite get_user_store.
    + by apply patch_user_fields_defined.
    + unfold close. destruct (authUserAsync _ _) as [me|]; [|done].
      intros k u. simpl. rewrite lookup_delete.
      case_decide; [done|apply IH].
Qed.

(** The principal is the record stored under the [user_id] of the
    credentials. *)
Lemma principal_key a users me cred :
  keyed_by_user_id users →
  authUserAsync a users = Some me →
  parseBasicAuth a = Some cred →
  user_id me = KStr (cred_user_id cred).
Proof.
  intros Hk (cred' & Hp & Hu & _)%authUserAsync_Some Hcred.
  rewrite Hp in Hcred. simplify_eq. by apply Hk.
Qed.

(** *** Close *)

(** C8. An authenticated close removes the record of the principal and
    is answered with status 200; afterwards the same header no longer
    authenticates, and a retrieval, an update or a close that presents
    it is answered with 401. *)
Theorem close_removes_principal a users me :
  keyed_by_user_id users →
  authUserAsync a users = Some me →
  let users' := delete (user_id me) users in
  close a users
  = (Respond (Response 200 "Account and user successfully removed"
                None None),
     users')
  ∧ users !! user_id me = Some me
  ∧ users' !! user_id me = None
  ∧ authUserAsync a users' = None
  ∧ (∀ path, get_user a path users'
             = (Respond (Response 401 "Authentication failed" None None),
                users'))
  ∧ (∀ path body, patch_user a path body users'
                  = (Respond (Response 401 "Authentication failed" None None),
                     users'))
  ∧ close a users'
    = (Respond (Response 401 "Authentication failed" None None), users').
Proof.
  intros Hk Ha users'.
  assert (authUserAsync a users' = None) as Hnone.
  { destruct (authUserAsync_Some _ _ _ Ha) as (cred & Hp & Hu & _).
    unfold authUserAsync. rewrite Hp.
    rewrite -(principal_key _ _ _ _ Hk Ha Hp).
    unfold users'. by rewrite lookup_delete_eq. }
  repeat split.
  - unfold close. by rewrite Ha.
  - by apply (authUserAsync_key a).
  - apply lookup_delete_eq.
  - done.
  - intros path. unfold get_user. by rewrite Hnone.
  - intros path body. unfold patch_user. by rewrite Hnone.
  - unfold close. by rewrite Hnone.
Qed.

(** *** Frame *)

(** C10. In every store the service can hold, each record is stored
    under its own [user_id]; a signup changes nothing or binds one key
    that was free, the key of the submitted [user_id]; an update leaves
    every key other than the path's as it was, and the record it stores
    under the path's key keeps its [user_id]; a retrieval changes
    nothing; a close changes nothing unless the header authenticates,
    and then removes the key of the credentials and no other; and every
    record is again stored under its own [user_id] after any request. *)
Theorem requests_touch_one_record users :
  reachable users →
  keyed_by_user_id users
  ∧ (∀ salt body,
       (signup salt body users).2 = users
       ∨ ∃ k u, prop (body_or_empty body) "user_id" ≫= map_key = Some k
                ∧ users !! k = None
                ∧ user_id u = k
                ∧ (signup salt body users).2 = <[k := u]> users
                ∧ ∀ k', k' ≠ k →
                    (signup salt body users).2 !! k' = users !! k')
  ∧ (∀ a path body,
       (∀ k, k ≠ KStr path →
             (patch_user a path body users).2 !! k = users !! k)
       ∧ (∀ u', (patch_user a path body users).2 !! KStr path = Some u' →
                user_id u' = KStr path))
  ∧ (∀ a path, (get_user a path users).2 = users)
  ∧ (∀ a, authUserAsync a users = None → (close a users).2 = users)
  ∧ (∀ a me cred,
       authUserAsync a users = Some me →
       parseBasicAuth a = Some cred →
       user_id me = KStr (cred_user_id cred)
       ∧ (close a users).2 !! KStr (cred_user_id cred) = None
       ∧ ∀ k, k ≠ KStr (cred_user_id cred) →
              (close a users).2 !! k = users !! k)
  ∧ (∀ req, keyed_by_user_id (handle req users).2).
Proof.
  intros Hk%reachable_keyed.
  split; [done|]. split.
  { intros salt body.
    destruct (signup_store salt body users)
      as [? | (k & u & Hnone & Hu & Hkey & Hs)]; [by left|].
    right. exists k, u. repeat split; try done.
    intros k' Hne. rewrite Hs. by apply lookup_insert_ne. }
  split.
  { intros a path body. split.
    - intros k Hne.
      destruct (patch_user_store a path body users) as [-> | (u & _ & ->)];
        [done|]. by apply lookup_insert_ne.
    - intros u'. by apply patch_user_keyed. }
  split; [intros a path; apply get_user_store|].
  split; [intros a Ha; unfold close; by rewrite Ha|].
  split; [|intros req; by apply handle_keyed].
  intros a me cred Ha Hp.
  pose proof (principal_key _ _ _ _ Hk Ha Hp) as Hme.
  unfold close. rewrite Ha -Hme. simpl. repeat split.
  - apply lookup_delete_eq.
  - intros k Hne. by apply lookup_delete_ne.
Qed.


(** ** Further properties of the handlers *)

(** *** Signup on string fields *)

(** A pattern that holds bounds the length. *)
Lemma valid_id_length s :
  valid_id s = true → (6 ≤ length s ≤ 20)%nat ∧ s ≠ [].
Proof.
  unfold valid_id, between.
  intros [_ [H1 H2]%andb_true_iff]%andb_true_iff.
  apply Nat.leb_le in H1, H2. split; [lia|]. intros ->. simpl in H1. lia.
Qed.

Lemma valid_password_length p :
  valid_password p = true → (8 ≤ length p ≤ 20)%nat ∧ p ≠ [].
Proof.
  unfold valid_password, between.
  intros [_ [H1 H2]%andb_true_iff]%andb_true_iff.
  apply Nat.leb_le in H1, H2. split; [lia|]. intros ->. simpl in H1. lia.
Qed.

(** X1. A signup whose [user_id] and [password] are strings always gets a
    response, and the response has status 200 exactly when the [user_id]
    is 6 to 20 letters and digits, the password is 8 to 20 visible ASCII
    characters, and the [user_id] is not in the store; otherwise the
    status is 400. *)
Theorem signup_strings_accepted_iff salt body users s p :
  prop (body_or_empty body) "user_id" = Some (JStr s) →
  prop (body_or_empty body) "password" = Some (JStr p) →
  ∃ r, (signup salt body users).1 = Respond r
       ∧ (status r = 200%nat ∨ status r = 400%nat)
       ∧ (status r = 200%nat
          ↔ valid_id s = true ∧ valid_password p = true
            ∧ users !! KStr s = None).
Proof.
  intros Hs Hp. rewrite (signup_strings _ _ _ _ _ Hs Hp).
  destruct (valid_id s) eqn:Hvs.
  - destruct (valid_id_length _ Hvs) as [Hls Hns].
    destruct (valid_password p) eqn:Hvp.
    + destruct (valid_password_length _ Hvp) as [Hlp Hnp].
      rewrite (bool_decide_eq_false_2 (s = [])); [done|].
      rewrite (bool_decide_eq_false_2 (p = [])); [done|]. simpl.
      replace (length s <? 6)%nat with false by (symmetry; apply Nat.ltb_ge; lia).
      replace (20 <? length s)%nat with false by (symmetry; apply Nat.ltb_ge; lia).
      replace (length p <? 8)%nat with false by (symmetry; apply Nat.ltb_ge; lia).
      replace (20 <? length p)%nat with false by (symmetry; apply Nat.ltb_ge; lia).
      simpl. case_bool_decide as Hin.
      * eexists. split; [done|]. split; [by right|]. simpl.
        split; [done|]. intros (_ & _ & Hnone). rewrite Hnone in Hin.
        by destruct Hin.
      * eexists. split; [done|]. split; [by left|]. simpl.
        split; [|done]. intros _. repeat split. by apply eq_None_not_Some.
    + repeat case_match; eexists; (split; [done|]); simpl;
        (split; [by right|]); (split; [done|]); by intros (_ & ? & _).
  - repeat case_match; eexists; (split; [done|]); simpl;
      (split; [by right|]); (split; [done|]); by intros (? & _ & _).
Qed.

Lemma signup_ok_patterns salt body users r users' :
  signup salt body users = (Respond r, users') →
  status r = 200%nat →
  ∃ uid pwd,
    prop (body_or_empty body) "user_id" = Some uid
    ∧ prop (body_or_empty body) "password" = Some pwd
    ∧ isValidUserId uid = Ok true
    ∧ isValidPassword pwd = Ok true.
Proof.
  unfold signup, creation_failed, reply_cause, reply_user.
  destruct (prop (body_or_empty body) "user_id") as [uid|]; [|by intros [= <-]].
  destruct (prop (body_or_empty body) "password") as [pwd|];
    [|by intros [= <-]].
  destruct (required_missing _ _); [by intros [= <-]|].
  destruct (length_incorrect uid pwd) as [[]|]; try by intros [= <-].
  destruct (pattern_incorrect uid pwd) as [[]|] eqn:Hpat;
    try by intros [= <-].
  intros _ _. exists uid, pwd. repeat split; try done.
  - revert Hpat. unfold pattern_incorrect.
    by destruct (isValidUserId uid) as [[]|].
  - revert Hpat. unfold pattern_incorrect.
    destruct (isValidUserId uid) as [[]|]; try done.
    by destruct (isValidPassword pwd) as [[]|].
Qed.

Lemma isValidUserId_key uid k :
  map_key uid = Some k → isValidUserId uid = Ok true →
  valid_id (key_string k) = true.
Proof.
  destruct uid; try done; intros [= <-]; unfold isValidUserId, valid_id;
    simpl; by intros [= ?].
Qed.

(** *** Only a 200 changes the store *)

(** X2. Whatever the request, the store is changed only when the response
    has status 200: a rejection with 400, 401, 403 or 404, and a handler
    that sends nothing, leave every record as it was. *)
Theorem store_changes_only_with_200 req users :
  (handle req users).2 ≠ users →
  ∃ r, (handle req users).1 = Respond r ∧ status r = 200%nat.
Proof.
  destruct req as [salt body|a path|a path body|a]; simpl.
  - unfold signup, creation_failed, reply_cause, reply_user.
    repeat case_match; simpl; intros Hne; try (by destruct Hne); eauto.
  - rewrite get_user_store. by intros [].
  - unfold patch_user, updation_failed, auth_failed, reply, reply_cause,
      reply_user.
    repeat case_match; simpl; intros Hne; try (by destruct Hne); eauto.
  - unfold close, auth_failed, reply.
    case_match; simpl; intros Hne; try (by destruct Hne); eauto.
Qed.

(** *** A taken [user_id] *)

(** X3. A signup whose [user_id] is already a key of the store never
    creates or overwrites a record: the store is left as it was, and a
    response, if one is sent, has status 400. *)
Theorem signup_taken_user_id_rejected salt body users uid k u :
  prop (body_or_empty body) "user_id" = Some uid →
  map_key uid = Some k →
  users !! k = Some u →
  (signup salt body users).2 = users
  ∧ ∀ r, (signup salt body users).1 = Respond r → status r = 400%nat.
Proof.
  intros Hu Hk Hin. unfold signup, creation_failed, reply_cause, reply_user.
  rewrite Hu Hk (bool_decide_eq_true_2 (is_Some (users !! k))); [by eexists|].
  repeat case_match; split; try done; by intros r [= <-].
Qed.

(** *** Stored identifiers *)

Lemma keys_valid_insert users k u :
  keys_valid users → valid_id (key_string k) = true →
  keys_valid (<[k := u]> users).
Proof.
  intros Hv Hk k' u'. rewrite lookup_insert.
  case_decide; [|apply Hv]. intros _. by subst.
Qed.

Lemma signup_store_valid salt body users :
  (signup salt body users).2 = users
  ∨ ∃ k u, valid_id (key_string k) = true
           ∧ (signup salt body users).2 = <[k := u]> users.
Proof.
  unfold signup, creation_failed, reply_cause, reply_user.
  destruct (prop (body_or_empty body) "user_id") as [uid|]; [|by left].
  destruct (prop (body_or_empty body) "password") as [pwd|]; [|by left].
  destruct (required_missing _ _); [by left|].
  destruct (length_incorrect uid pwd) as [[]|]; try by left.
  destruct (pattern_incorrect uid pwd) as [[]|] eqn:Hpat; try by left.
  simpl. destruct (map_key uid) as [k|] eqn:Hk; [|by left].
  case_bool_decide; [by left|].
  destruct pwd; try by left.
  right. eexists k, _. split; [|done].
  apply (isValidUserId_key uid); [done|].
  revert Hpat. unfold pattern_incorrect.
  by destruct (isValidUserId uid) as [[]|].
Qed.

Lemma signup_keys_valid salt body users :
  keys_valid users → keys_valid (signup salt body users).2.
Proof.
  intros Hv.
  destruct (signup_store_valid salt body users) as [-> | (k & u & Hk & ->)];
    [done|].
  by apply keys_valid_insert.
Qed.

Lemma reachable_keys_valid users : reachable users → keys_valid users.
Proof.
  induction 1 as [|salt users _ IH|req users _ IH].
  - intros k u. by rewrite lookup_empty.
  - unfold seedReservedUser. case_bool_decide; [done|].
    by apply keys_valid_insert.
  - destruct req as [salt body|a path|a path body|a]; simpl.
    + by apply signup_keys_valid.
    + by rewrite get_user_store.
    + destruct (patch_user_store a path body users) as [-> | (u & Hu & ->)];
        [done|].
      apply keys_valid_insert; [done|]. by apply (IH _ _ Hu).
    + unfold close. destruct (authUserAsync _ _) as [me|]; [|done].
      intros k u. simpl. rewrite lookup_delete.
      case_decide; [done|apply IH].
Qed.

(** X4. In every store the service can hold, the [user_id] of every
    record renders as 6 to 20 letters and digits (so it is never empty
    and holds no colon), including the records whose [user_id] was
    submitted as a number. *)
Theorem stored_user_id_valid users k u :
  reachable users →
  users !! k = Some u →
  valid_id (key_string (user_id u)) = true
  ∧ (6 ≤ length (key_string (user_id u)) ≤ 20)%nat
  ∧ 58%N ∉ key_string (user_id u).
Proof.
  intros Hr Hu.
  rewrite (reachable_keyed _ Hr _ _ Hu).
  pose proof (reachable_keys_valid _ Hr _ _ Hu) as Hv.
  split; [done|]. split; [by apply valid_id_length|].
  unfold valid_id in Hv. apply andb_true_iff in Hv as [Hall _].
  intros Hin. rewrite forallb_forall in Hall.
  apply list_elem_of_In, Hall in Hin. done.
Qed.

(** *** Credentials *)

Lemma indexOf_Some c s i :
  indexOf c s = Some i →
  s = take i s ++ c :: drop (S i) s ∧ c ∉ take i s.
Proof.
  revert i. induction s as [|x s IH]; intros i; simpl; [done|].
  destruct (x =? c)%N eqn:Hx.
  - apply N.eqb_eq in Hx as ->. intros [= <-]. simpl.
    split; [done|]. apply not_elem_of_nil.
  - apply N.eqb_neq in Hx.
    destruct (indexOf c s) as [j|]; [|done]. simpl. intros [= <-].
    destruct (IH j eq_refl) as [Heq Hnot]. simpl. split.
    + by rewrite -Heq.
    + intros [->|Hin]%elem_of_cons; [done|by apply Hnot].
Qed.

Lemma indexOf_first c s t :
  c ∉ s → indexOf c (s ++ c :: t) = Some (length s).
Proof.
  induction s as [|x s IH]; simpl.
  - intros _. by rewrite N.eqb_refl.
  - intros Hnot. apply not_elem_of_cons in Hnot as [Hx Hs].
    rewrite (proj2 (N.eqb_neq x c)); [done|]. by rewrite (IH Hs).
Qed.

Lemma parseBasicAuth_decoded h uid pw :
  basic_form h = true →
  base64_utf8 (trim (drop_space (drop 5 h))) = uid ++ 58%N :: pw →
  58%N ∉ uid →
  parseBasicAuth (Some h) = Some (Credentials uid pw).
Proof.
  intros Hb Hd Hnot. unfold parseBasicAuth. simpl. rewrite Hb Hd. simpl.
  rewrite (indexOf_first _ _ _ Hnot).
  rewrite take_app_length.
  replace (S (length uid)) with (length uid + 1)%nat by lia.
  by rewrite -drop_drop drop_app_length.
Qed.

(** X5. The credentials are the two sides of the first colon of the
    decoded text: a header yields the [user_id] [uid] and the password
    [pw] exactly when it has the Basic form, its payload decodes to [uid],
    a colon and [pw], and [uid] holds no colon.  The password may hold
    colons; the [user_id] never does. *)
Theorem parseBasicAuth_splits_at_first_colon h uid pw :
  parseBasicAuth (Some h) = Some (Credentials uid pw)
  ↔ basic_form h = true
    ∧ base64_utf8 (trim (drop_space (drop 5 h))) = uid ++ 58%N :: pw
    ∧ 58%N ∉ uid.
Proof.
  split.
  - unfold parseBasicAuth. simpl.
    destruct (basic_form h); simpl; [|done].
    destruct (indexOf 58 _) as [i|] eqn:Hi; [|done].
    intros [= <- <-]. by destruct (indexOf_Some _ _ _ Hi).
  - intros (Hb & Hd & Hnot). by apply parseBasicAuth_decoded.
Qed.

(** *** Signup, then authentication *)

(** X6. After a successful signup with the string [user_id] [s] and the
    password [p], a Basic header whose payload decodes to [s], a colon
    and [p] authenticates as the new record, provided the hasher accepts
    the password it hashed.  This holds for passwords that hold colons
    too. *)
Theorem signup_then_authenticate salt body users r users' s h :
  signup salt body users = (Respond r, users') →
  status r = 200%nat →
  prop (body_or_empty body) "user_id" = Some (JStr s) →
  ∃ p me,
    prop (body_or_empty body) "password" = Some (JStr p)
    ∧ (basic_form h = true →
       base64_utf8 (trim (drop_space (drop 5 h))) = s ++ 58%N :: p →
       bcrypt_compare p (bcrypt_hash salt p) = true →
       authUserAsync (Some h) users' = Some me
       ∧ users' !! KStr s = Some me
       ∧ user_id me = KStr s).
Proof.
  intros H Hst Hs.
  destruct (signup_ok_patterns _ _ _ _ _ H Hst)
    as (uid' & pwd' & Hu' & _ & Hvalid & _).
  destruct (signup_ok_inv _ _ _ _ _ H Hst)
    as (uid & p & k & Hu & Hp & Hk & _ & _ & ->).
  rewrite Hs in Hu, Hu'. simplify_eq/=.
  eexists p, _. split; [done|]. intros Hb Hd Hc.
  assert (58%N ∉ s) as Hnot.
  { unfold isValidUserId in Hvalid. simpl in Hvalid.
    injection Hvalid as Hvalid.
    apply andb_true_iff in Hvalid as [Hall _].
    intros Hin. rewrite forallb_forall in Hall.
    apply list_elem_of_In, Hall in Hin. done. }
  unfold authUserAsync.
  rewrite (parseBasicAuth_decoded _ _ _ Hb Hd Hnot). simpl.
  rewrite lookup_insert_eq. simpl. by rewrite Hc.
Qed.

(** *** Records under a number *)

(** X7. A record stored under a number can never be used: no header
    authenticates as it, no retrieval shows it, and no request changes or
    removes it.  (Such a record is created by a signup whose [user_id] is
    a JSON number of 6 to 20 digits.) *)
Theorem number_keyed_record_is_stranded users n u :
  keyed_by_user_id users →
  users !! KNum n = Some u →
  (∀ a me, authUserAsync a users = Some me → user_id me ≠ KNum n)
  ∧ (∀ a path r v, (get_user a path users).1 = Respond r →
                   res_user r = Some v → view_user_id v ≠ JNum n)
  ∧ (∀ req, (handle req users).2 !! KNum n = Some u).
Proof.
  intros Hk Hu.
  assert (∀ a me, authUserAsync a users = Some me → user_id me ≠ KNum n)
    as Hauth.
  { intros a me (cred & _ & Hme & _)%authUserAsync_Some.
    by rewrite (Hk _ _ Hme). }
  split; [done|]. split.
  - intros a path r v. unfold get_user, auth_failed, reply, reply_user.
    destruct (authUserAsync a users); [|by intros [= <-]].
    destruct (users !! KStr path) as [u'|] eqn:Hu'; [|by intros [= <-]].
    simpl. intros [= <-] [= <-]. simpl. by rewrite (Hk _ _ Hu').
  - intros [salt body|a path|a path body|a]; simpl.
    + destruct (signup_store salt body users)
        as [-> | (k & u' & Hnone & _ & _ & ->)]; [done|].
      rewrite lookup_insert_ne; [|done]. intros ->. by rewrite Hu in Hnone.
    + by rewrite get_user_store.
    + destruct (patch_user_store a path body users) as [-> | (u' & _ & ->)];
        [done|]. by rewrite lookup_insert_ne.
    + unfold close. destruct (authUserAsync a users) as [me|] eqn:Ha; [|done].
      simpl. rewrite lookup_delete_ne; [|done]. by apply (Hauth a).
Qed.

(** *** What later requests do to a login *)

Lemma authUserAsync_agree a users users' :
  (∀ cred, parseBasicAuth a = Some cred →
           users' !! KStr (cred_user_id cred)
           = users !! KStr (cred_user_id cred)) →
  authUserAsync a users' = authUserAsync a users.
Proof.
  intros Hsame. unfold authUserAsync.
  destruct (parseBasicAuth a) as [cred|]; [|done].
  by rewrite (Hsame cred eq_refl).
Qed.

(** X8. A header that authenticates keeps authenticating, as the same
    [user_id] with the same password hash, after any request, except a
    close that authenticates as that same [user_id]: no signup and no
    update, by the owner or by anyone else, locks a user out or changes a
    password. *)
Theorem header_keeps_authenticating a users me req :
  keyed_by_user_id users →
  authUserAsync a users = Some me →
  (∃ me', authUserAsync a (handle req users).2 = Some me'
          ∧ user_id me' = user_id me
          ∧ passwordHash me' = passwordHash me)
  ∨ (∃ a' me2, req = PostClose a'
               ∧ authUserAsync a' users = Some me2
               ∧ user_id me2 = user_id me).
Proof.
  intros Hk Ha.
  destruct (authUserAsync_Some _ _ _ Ha) as (cred & Hp & Hme & Hc).
  pose proof (Hk _ _ Hme) as Hid.
  destruct req as [salt body|a' path|a' path body|a']; simpl.
  - left. exists me. split; [|done]. rewrite -Ha.
    apply authUserAsync_agree. intros cred' Hp'.
    rewrite Hp in Hp'. simplify_eq.
    destruct (signup_store salt body users)
      as [-> | (k & u & Hnone & _ & _ & ->)]; [done|].
    apply lookup_insert_ne. intros ->. by rewrite Hme in Hnone.
  - left. exists me. by rewrite get_user_store.
  - left.
    destruct (patch_user_store a' path body users) as [-> | (u & Hu & ->)];
      [by exists me|].
    destruct (decide (KStr path = KStr (cred_user_id cred))) as [Heq|Hne].
    + injection Heq as ->. rewrite Hme in Hu. injection Hu as <-.
      exists (apply_update me (body_or_empty body)).
      rewrite apply_update_user_id apply_update_passwordHash.
      split; [|done]. unfold authUserAsync. rewrite Hp lookup_insert_eq.
      by rewrite apply_update_passwordHash Hc.
    + exists me. split; [|done]. rewrite -Ha.
      apply authUserAsync_agree. intros cred' Hp'.
      rewrite Hp in Hp'. simplify_eq. by apply lookup_insert_ne.
  - unfold close. destruct (authUserAsync a' users) as [me2|] eqn:Ha2;
      [|left; by exists me].
    simpl. destruct (decide (user_id me2 = user_id me)) as [Heq|Hne].
    + right. by exists a', me2.
    + left. exists me. split; [|done]. rewrite -Ha.
      apply authUserAsync_agree. intros cred' Hp'.
      rewrite Hp in Hp'. simplify_eq. apply lookup_delete_ne.
      by rewrite -Hid.
Qed.

(** *** Updates compose *)

Lemma apply_update_idem u b :
  apply_update (apply_update u b) b = apply_update u b.
Proof.
  unfold apply_update, set_nickname, set_comment.
  destruct (hasOwnProperty b "nickname"), (hasOwnProperty b "comment");
    simpl; try done;
    by destruct (is_empty_string (prop b "nickname")),
                (is_empty_string (prop b "comment")).
Qed.

(** X9. A successful update is idempotent: the same request sent again to
    the store it produced gets the same response and leaves that store as
    it is. *)
Theorem patch_user_idempotent a path body users r users' :
  keyed_by_user_id users →
  patch_user a path body users = (Respond r, users') →
  status r = 200%nat →
  patch_user a path body users' = (Respond r, users').
Proof.
  intros Hk H Hst.
  destruct (patch_user_ok_inv _ _ _ _ _ _ H Hst)
    as (me & u & Ha & Hu & Hown & Huid & Hpwd & Hany & Hn & Hc & -> & ->).
  pose proof (authUserAsync_key _ _ _ Hk Ha) as Hme.
  rewrite Hown Hu in Hme. simplify_eq.
  destruct (authUserAsync_Some _ _ _ Ha) as (cred & Hp & Hlook & Hcmp).
  pose proof (Hk _ _ Hlook) as Hid. rewrite Hown in Hid.
  set (b := body_or_empty body) in *. set (u' := apply_update me b).
  assert (authUserAsync a (<[KStr path := u']> users) = Some u') as Ha'.
  { unfold authUserAsync. rewrite Hp -Hid lookup_insert_eq.
    unfold u'. by rewrite apply_update_passwordHash Hcmp. }
  unfold patch_user. rewrite Ha' lookup_insert_eq.
  rewrite (bool_decide_eq_false_2 (user_id u' ≠ KStr path)).
  { unfold u'. rewrite apply_update_user_id. by intros []. }
  fold b. rewrite Huid Hpwd. simpl.
  destruct (hasOwnProperty b "nickname") eqn:Hhn,
           (hasOwnProperty b "comment") eqn:Hhc; simpl;
    rewrite ?(Hn eq_refl) ?(Hc eq_refl) /=;
    try (by destruct Hany);
    unfold u'; by rewrite apply_update_idem insert_insert_eq.
Qed.

(** *** Update, then retrieval *)

(** X10. What a successful update stored is what any authenticated user
    then retrieves: a non-empty nickname comes back as the nickname, a
    non-empty comment as the comment, and after an update with the empty
    comment the retrieved user object has no [comment] property. *)
Theorem update_then_retrieve a path body users r users' a' me' :
  patch_user a path body users = (Respond r, users') →
  status r = 200%nat →
  authUserAsync a' users' = Some me' →
  ∃ v, get_user a' path users'
       = (reply_user 200 "User details by user_id" v, users')
       ∧ (∀ s, prop (body_or_empty body) "nickname" = Some (JStr s) →
               s ≠ [] → view_nickname v = JStr s)
       ∧ (∀ s, prop (body_or_empty body) "comment" = Some (JStr s) →
               s ≠ [] → view_comment v = Some (JStr s))
       ∧ (prop (body_or_empty body) "comment" = Some (JStr []) →
          view_comment v = None).
Proof.
  intros H Hst Ha'.
  destruct (patch_user_ok_fields _ _ _ _ _ _ H Hst)
    as (u & u' & _ & Hu' & _ & _ & _ & Hnick & _ & Hcom & _ & _).
  rewrite (get_user_found _ _ _ _ _ Ha' Hu').
  eexists. split; [done|]. simpl. repeat split.
  - intros s Hs Hne. unfold effective_nickname.
    rewrite (Hnick s Hs Hne). by destruct s.
  - intros s Hs Hne. unfold retrieved_comment.
    rewrite (Hcom s Hs). by destruct s.
  - intros Hs. unfold retrieved_comment. by rewrite (Hcom [] Hs).
Qed.

(** *** Close, then signup *)

Lemma signup_strings_ok salt body users s p :
  prop (body_or_empty body) "user_id" = Some (JStr s) →
  prop (body_or_empty body) "password" = Some (JStr p) →
  valid_id s = true → valid_password p = true →
  users !! KStr s = None →
  signup salt body users
  = (reply_user 200 "Account successfully created"
       (UserView (JStr s) (JStr s) None),
     <[KStr s :=
         User (KStr s) (bcrypt_hash salt p)
           (Some (nullish (prop (body_or_empty body) "nickname") (JStr s)))
           (Some (nullish (prop (body_or_empty body) "comment") JNull))]>
       users).
Proof.
  intros Hs Hp Hvs Hvp Hnone. rewrite (signup_strings _ _ _ _ _ Hs Hp).
  destruct (valid_id_length _ Hvs) as [Hls Hns].
  destruct (valid_password_length _ Hvp) as [Hlp Hnp].
  rewrite (bool_decide_eq_false_2 (s = [])); [done|].
  rewrite (bool_decide_eq_false_2 (p = [])); [done|]. simpl.
  replace (length s <? 6)%nat with false by (symmetry; apply Nat.ltb_ge; lia).
  replace (20 <? length s)%nat with false by (symmetry; apply Nat.ltb_ge; lia).
  replace (length p <? 8)%nat with false by (symmetry; apply Nat.ltb_ge; lia).
  replace (20 <? length p)%nat with false by (symmetry; apply Nat.ltb_ge; lia).
  by rewrite Hvs Hvp Hnone.
Qed.

(** X11. A [user_id] is free again once its account is closed: after an
    authenticated close, a signup with the [user_id] of the closed
    account and any valid password is accepted, and the new record
    carries the hash of the new password. *)
Theorem close_then_signup_again a users me salt body p :
  reachable users →
  authUserAsync a users = Some me →
  prop (body_or_empty body) "user_id" = Some (key_json (user_id me)) →
  prop (body_or_empty body) "password" = Some (JStr p) →
  valid_password p = true →
  ∃ u',
    signup salt body (close a users).2
    = (reply_user 200 "Account successfully created"
         (UserView (key_json (user_id me)) (key_json (user_id me)) None),
       <[user_id me := u']> (delete (user_id me) users))
    ∧ user_id u' = user_id me
    ∧ passwordHash u' = bcrypt_hash salt p.
Proof.
  intros Hr Ha Hs Hp Hvp.
  destruct (authUserAsync_Some _ _ _ Ha) as (cred & Hparse & Hme & _).
  pose proof (reachable_keyed _ Hr _ _ Hme) as Hid.
  pose proof (reachable_keys_valid _ Hr _ _ Hme) as Hvs. simpl in Hvs.
  unfold close. rewrite Ha. simpl. rewrite Hid in Hs |- *. simpl in Hs.
  rewrite (signup_strings_ok _ _ _ _ _ Hs Hp Hvs Hvp);
    [apply lookup_delete_eq|].
  by eexists.
Qed.

(** *** Nickname and comment at signup *)

(** X12. Signup stores the submitted nickname and comment unchecked: any
    JSON value other than [null] and the empty string, of any type,
    length or content, is what an authenticated retrieval of the new
    account returns as its nickname, and likewise for the comment. *)
Theorem signup_fields_unvalidated salt body users r users' s a me :
  signup salt body users = (Respond r, users') →
  status r = 200%nat →
  prop (body_or_empty body) "user_id" = Some (JStr s) →
  authUserAsync a users' = Some me →
  ∃ v, get_user a s users'
       = (reply_user 200 "User details by user_id" v, users')
       ∧ (∀ n, prop (body_or_empty body) "nickname" = Some n →
               n ≠ JNull → n ≠ JStr [] → view_nickname v = n)
       ∧ (∀ c, prop (body_or_empty body) "comment" = Some c →
               c ≠ JNull → c ≠ JStr [] → view_comment v = Some c).
Proof.
  intros H Hst Hs Ha.
  destruct (signup_ok_inv _ _ _ _ _ H Hst)
    as (uid & p & k & Hu & _ & Hk & _ & _ & ->).
  rewrite Hs in Hu. simplify_eq/=.
  rewrite (get_user_found _ _ _ _ _ Ha (lookup_insert_eq _ _ _)).
  eexists. split; [done|]. simpl. split.
  - intros n -> Hnull Hempty. unfold effective_nickname. simpl.
    by destruct n as [| | |[|]| |].
  - intros c -> Hnull Hempty. unfold retrieved_comment. simpl.
    by destruct c as [| | |[|]| |].
Qed.

(** *** Reading is not restricted to the owner *)

(** X14. Whenever an update is refused with 403, the same header and path
    sent as a retrieval get 200 and the record: an authenticated user may
    read every account and write only its own. *)
Theorem forbidden_update_is_readable a path body users r :
  (patch_user a path body users).1 = Respond r →
  status r = 403%nat →
  ∃ u, users !! KStr path = Some u
       ∧ get_user a path users
         = (reply_user 200 "User details by user_id"
              (UserView (key_json (user_id u)) (effective_nickname u)
                 (retrieved_comment u)),
            users).
Proof.
  unfold patch_user, updation_failed, auth_failed, reply, reply_cause,
    reply_user.
  destruct (authUserAsync a users) as [me|] eqn:Ha;
    [|by intros [= <-]].
  destruct (users !! KStr path) as [u|] eqn:Hu; [|by intros [= <-]].
  intros _ _. exists u. split; [done|]. by apply (get_user_found _ _ _ me).
Qed.

(** *** Nicknames in responses *)

Lemma effective_nickname_nonempty u :
  key_string (user_id u) ≠ [] → effective_nickname u ≠ JStr [].
Proof.
  unfold effective_nickname. intros Hne.
  destruct (nickname u) as [[| | |[|]| |]|]; simpl; try done;
    destruct (user_id u); simpl in *; congruence.
Qed.

(** X15. In every store the service can hold, no response carries the
    empty string as a nickname: signup answers with the submitted
    [user_id], and retrieval and update fall back on the record's
    [user_id], which is never empty. *)
Theorem response_nickname_never_empty users req r v :
  reachable users →
  (handle req users).1 = Respond r →
  res_user r = Some v →
  view_nickname v ≠ JStr [].
Proof.
  intros Hr.
  assert (∀ k u, users !! k = Some u → key_string (user_id u) ≠ []) as Hne.
  { intros k u Hu. rewrite (reachable_keyed _ Hr _ _ Hu).
    by apply valid_id_length, (reachable_keys_valid _ Hr _ _ Hu). }
  destruct req as [salt body|a path|a path body|a]; simpl.
  - intros H Hv.
    destruct (signup salt body users) as [res users'] eqn:Hs.
    simpl in H. subst res.
    destruct (decide (status r = 200%nat)) as [Hst|Hst].
    + destruct (signup_ok_inv _ _ _ _ _ Hs Hst)
        as (uid & p & k & Hu & _ & Hk & _ & -> & _).
      simpl in Hv. injection Hv as <-. simpl.
      destruct (signup_ok_patterns _ _ _ _ _ Hs Hst)
        as (uid' & pwd' & Hu' & _ & Hvalid & _).
      rewrite Hu in Hu'. injection Hu' as <-.
      intros ->. by vm_compute in Hvalid.
    + revert Hs Hst Hv. unfold signup, creation_failed, reply_cause,
        reply_user.
      repeat case_match; intros [= <- _]; try done.
  - unfold get_user, auth_failed, reply, reply_user.
    destruct (authUserAsync a users) as [me|]; [|by intros [= <-]].
    destruct (users !! KStr path) as [u|] eqn:Hu; [|by intros [= <-]].
    simpl. intros [= <-] [= <-]. simpl.
    by apply effective_nickname_nonempty, (Hne _ _ Hu).
  - intros H Hv.
    destruct (patch_user a path body users) as [res users'] eqn:Hs.
    simpl in H. subst res.
    destruct (decide (status r = 200%nat)) as [Hst|Hst].
    + destruct (patch_user_ok_inv _ _ _ _ _ _ Hs Hst)
        as (me & u & _ & Hu & _ & _ & _ & _ & _ & _ & -> & _).
      simpl in Hv. injection Hv as <-. simpl.
      apply effective_nickname_nonempty.
      rewrite apply_update_user_id. by apply (Hne _ _ Hu).
    + revert Hs Hst Hv. unfold patch_user, updation_failed, auth_failed,
        reply, reply_cause, reply_user.
      repeat case_match; intros [= <- _]; try done.
  - unfold close, auth_failed, reply.
    destruct (authUserAsync a users); by intros [= <-].
Qed.

(** *** The form of the header *)

Lemma drop_space_spaces ws s :
  forallb is_space ws = true → drop_space (ws ++ s) = drop_space s.
Proof.
  induction ws as [|c ws IH]; simpl; [done|].
  intros [Hc Hws]%andb_true_iff. rewrite Hc. by apply IH.
Qed.

Lemma drop_space_nil s :
  drop_space s = [] → forallb is_space s = true.
Proof.
  induction s as [|c s IH]; simpl; [done|].
  destruct (is_space c); [|done]. by intros ?%IH.
Qed.

Lemma drop_space_app s t :
  drop_space s ≠ [] → drop_space (s ++ t) = drop_space s ++ t.
Proof.
  induction s as [|c s IH]; simpl; [done|].
  destruct (is_space c); [by apply IH|done].
Qed.

Lemma trim_spaces_r s ws :
  forallb is_space ws = true → trim (s ++ ws) = trim s.
Proof.
  intros Hws. unfold trim.
  destruct (drop_space s) as [|c s'] eqn:Hs.
  - apply drop_space_nil in Hs.
    rewrite (drop_space_spaces s ws Hs).
    assert (drop_space ws = []) as ->; [|done].
    rewrite -(app_nil_r ws). by rewrite (drop_space_spaces ws [] Hws).
  - rewrite drop_space_app; [by rewrite Hs|]. rewrite Hs.
    rewrite reverse_app. rewrite drop_space_spaces; [|done].
    rewrite forallb_forall. intros x Hx.
    apply (proj2 (list_elem_of_In _ _)) in Hx.
    rewrite elem_of_reverse in Hx.
    rewrite forallb_forall in Hws. apply Hws.
    by apply (proj1 (list_elem_of_In _ _)).
Qed.

(** X13. The scheme of the header is read without regard to case and the
    white space around the payload does not count: any spelling of
    "basic", followed by any run of white space (none included), the
    payload, and any run of white space, yields the credentials that
    "Basic" followed directly by the payload yields. *)
Theorem parseBasicAuth_scheme_and_spaces scheme ws payload ws' :
  map to_lower scheme = lit "basic" →
  forallb is_space ws = true →
  forallb is_space ws' = true →
  parseBasicAuth (Some (scheme ++ ws ++ payload ++ ws'))
  = parseBasicAuth (Some (lit "Basic" ++ payload)).
Proof.
  intros Hscheme Hws Hws'.
  assert (length scheme = 5%nat) as Hlen.
  { by rewrite -(length_map to_lower) Hscheme. }
  unfold parseBasicAuth, basic_form. simpl default.
  rewrite take_app_length'; [done|]. rewrite Hscheme.
  rewrite drop_app_length'; [done|].
  change (take 5 (lit "Basic" ++ payload)) with (lit "Basic").
  change (drop 5 (lit "Basic" ++ payload)) with payload.
  rewrite (drop_space_spaces ws _ Hws).
  assert (trim (drop_space (payload ++ ws')) = trim (drop_space payload))
    as ->; [|done].
  destruct (drop_space payload) as [|c s'] eqn:Hp.
  - apply drop_space_nil in Hp. rewrite (drop_space_spaces payload ws' Hp).
    unfold trim.
    assert (drop_space ws' = []) as Hnil.
    { rewrite -(app_nil_r ws'). by rewrite (drop_space_spaces ws' [] Hws'). }
    by rewrite !Hnil.
  - rewrite drop_space_app; [by rewrite Hp|]. rewrite Hp.
    by apply trim_spaces_r.
Qed.

(** *** Which updates are accepted *)

Lemma field_invalid_false v max :
  field_invalid v max = false
  ↔ ∃ s, v = Some (JStr s)
         ∧ (s = [] ∨ (noCtrl s = true ∧ (length s ≤ max)%nat)).
Proof.
  unfold field_invalid. split.
  - destruct v as [[| | |s| |]|]; try done.
    destruct s as [|c s]; simpl; [by eexists; split; [|left]|].
    intros [Hc Hl]%orb_false_iff. exists (c :: s). split; [done|]. right.
    apply negb_false_iff in Hc. apply Nat.ltb_ge in Hl. by split.
  - intros (s & -> & [-> | [Hc Hl]]); [done|].
    destruct s as [|c s]; [done|]. simpl in *.
    rewrite Hc. simpl. apply Nat.ltb_ge. lia.
Qed.

(** X16. An update is accepted (status 200) exactly when the header
    authenticates as the [user_id] of the path, the body has neither a
    [user_id] nor a [password] key, it has a [nickname] or a [comment]
    key, and each of the two that is present is a string that is empty or
    has no control character (so no tab and no line break) and at most 30
    code units for the nickname, 100 for the comment. *)
Theorem patch_user_accepted_iff a path body users :
  keyed_by_user_id users →
  (∃ r users', patch_user a path body users = (Respond r, users')
               ∧ status r = 200%nat)
  ↔ (∃ me, authUserAsync a users = Some me ∧ user_id me = KStr path)
    ∧ prop (body_or_empty body) "user_id" = None
    ∧ prop (body_or_empty body) "password" = None
    ∧ (is_Some (prop (body_or_empty body) "nickname")
       ∨ is_Some (prop (body_or_empty body) "comment"))
    ∧ (∀ v, prop (body_or_empty body) "nickname" = Some v →
            ∃ s, v = JStr s
                 ∧ (s = [] ∨ (noCtrl s = true ∧ (length s ≤ 30)%nat)))
    ∧ (∀ v, prop (body_or_empty body) "comment" = Some v →
            ∃ s, v = JStr s
                 ∧ (s = [] ∨ (noCtrl s = true ∧ (length s ≤ 100)%nat))).
Proof.
  intros Hk. set (b := body_or_empty body). split.
  - intros (r & users' & H & Hst).
    destruct (patch_user_ok_inv _ _ _ _ _ _ H Hst)
      as (me & u & Ha & Hu & Hown & Huid & Hpwd & Hany & Hn & Hc & _).
    fold b in Huid, Hpwd, Hany, Hn, Hc.
    split; [by exists me|]. split; [done|]. split; [done|]. split.
    { destruct Hany as [?%hasOwnProperty_prop | ?%hasOwnProperty_prop];
        [by left|by right]. }
    split.
    + intros v Hv.
      assert (hasOwnProperty b "nickname" = true) as Hhas
        by (apply hasOwnProperty_prop; by rewrite Hv).
      apply Hn, field_invalid_false in Hhas as (s & Hs & Hok).
      rewrite Hv in Hs. injection Hs as ->. by exists s.
    + intros v Hv.
      assert (hasOwnProperty b "comment" = true) as Hhas
        by (apply hasOwnProperty_prop; by rewrite Hv).
      apply Hc, field_invalid_false in Hhas as (s & Hs & Hok).
      rewrite Hv in Hs. injection Hs as ->. by exists s.
  - intros ((me & Ha & Hown) & Huid & Hpwd & Hany & Hn & Hc).
    pose proof (authUserAsync_key _ _ _ Hk Ha) as Hme. rewrite Hown in Hme.
    unfold patch_user. rewrite Ha Hme.
    rewrite (bool_decide_eq_false_2 (user_id me ≠ KStr path));
      [by intros []|].
    fold b. rewrite Huid Hpwd. simpl.
    assert (hasOwnProperty b "nickname" = true →
            field_invalid (prop b "nickname") 30 = false) as Hn'.
    { intros [v Hv]%hasOwnProperty_prop. apply field_invalid_false.
      destruct (Hn v Hv) as (s & -> & Hok). by exists s. }
    assert (hasOwnProperty b "comment" = true →
            field_invalid (prop b "comment") 100 = false) as Hc'.
    { intros [v Hv]%hasOwnProperty_prop. apply field_invalid_false.
      destruct (Hc v Hv) as (s & -> & Hok). by exists s. }
    destruct (hasOwnProperty b "nickname") eqn:Hhn,
             (hasOwnProperty b "comment") eqn:Hhc; simpl;
      rewrite ?(Hn' eq_refl) ?(Hc' eq_refl) /=;
      try (by eexists _, _).
    exfalso.
    destruct Hany as [Hs%hasOwnProperty_prop | Hs%hasOwnProperty_prop];
      congruence.
Qed.

(** *** Bodies that are not objects *)

(** X17. A request body that is absent or is not a JSON object (an
    array, for instance) is handled as the empty object: signup rejects
    it for the missing [user_id] and password, and an update by the owner
    rejects it for the missing nickname and comment. *)
Theorem non_object_body_is_empty salt a path body users me u :
  (∀ props, body ≠ Some (JObj props)) →
  signup salt body users
  = (creation_failed "Required user_id and password", users)
  ∧ (authUserAsync a users = Some me →
     user_id me = KStr path →
     users !! KStr path = Some u →
     patch_user a path body users
     = (updation_failed "Required nickname or comment", users)).
Proof.
  intros Hbody.
  assert (∀ name, prop (body_or_empty body) name = None) as Hprop.
  { intros name. destruct body as [[]|]; simpl; try done;
      try (by case_match). by destruct (Hbody props). }
  assert (∀ name, hasOwnProperty (body_or_empty body) name = false) as Hhas.
  { intros name. destruct body as [[]|]; simpl; try done;
      try (by case_match). by destruct (Hbody props). }
  split.
  - unfold signup. by rewrite !Hprop.
  - intros Ha Hown Hu. unfold patch_user. rewrite Ha Hu.
    rewrite !Hprop !Hhas. simpl.
    by rewrite bool_decide_eq_false_2; [intros []|].
Qed.
End AccountService.


(** ** The properties on concrete requests

    The requests below are run with the reference instances of [Sample].
    [users1] is the store after the signup of [validUser1] on the empty
    store, [users2] that store after the seeding of the reserved user. *)

Import Sample.

Abbreviation signup1 := (signup plain_hash never never).
Abbreviation auth1 := (authUserAsync plain_compare base64_ascii).
Abbreviation get_user1 := (get_user plain_compare base64_ascii).
Abbreviation patch_user1 := (patch_user plain_compare base64_ascii).
Abbreviation close1 := (close plain_compare base64_ascii).
Abbreviation users1 := ((signup1 salt signup_body ∅).2).
Abbreviation users2 := (seedReservedUser plain_hash salt users1).

Lemma users2_reachable :
  reachable plain_hash plain_compare base64_ascii never never users2.
Proof.
  apply reach_seed.
  apply (reach_handle _ _ _ _ _ (PostSignup salt signup_body) ∅).
  apply reach_start.
Qed.

Lemma users2_keyed : keyed_by_user_id users2.
Proof.
  apply (seedReservedUser_keyed plain_hash salt).
  apply (signup_keyed plain_hash never never salt signup_body ∅).
  exact keyed_empty.
Qed.

(** The signup of [validUser1] with the nickname "Val": the response
    carries "validUser1" as nickname, the record stores "Val". *)
Lemma signup_response_nickname_is_user_id_witness :
  ∃ uid k v u,
    prop (body_or_empty signup_body_nickname) "user_id" = Some uid
    ∧ res_user
        (Response 200 "Account successfully created" None
           (Some (UserView (str "validUser1") (str "validUser1") None)))
      = Some v
    ∧ view_user_id v = uid
    ∧ view_nickname v = uid
    ∧ map_key uid = Some k
    ∧ (signup1 salt signup_body_nickname ∅).2 !! k = Some u
    ∧ (∀ nick, prop (body_or_empty signup_body_nickname) "nickname" = Some nick →
               nick ≠ JNull → nickname u = Some nick).
Proof.
  apply (signup_response_nickname_is_user_id plain_hash never never salt
           signup_body_nickname ∅).
  - by vm_compute.
  - reflexivity.
Defined.

(** [validUser1] signs up without a comment and retrieves its own
    record. *)
Lemma retrieval_after_signup_emits_null_comment_witness :
  ∃ u v,
    users1 !! KStr (lit "validUser1") = Some u
    ∧ comment u = Some JNull
    ∧ get_user1 validUser1_header (lit "validUser1") users1
      = (reply_user 200 "User details by user_id" v, users1)
    ∧ view_comment v = Some JNull.
Proof.
  apply (retrieval_after_signup_emits_null_comment plain_hash plain_compare
           base64_ascii never never salt signup_body ∅ created users1
           validUser1_header validUser1 (lit "validUser1")).
  - by vm_compute.
  - reflexivity.
  - by vm_compute.
  - by vm_compute.
  - by vm_compute.
Defined.

(** One signup for each cause: a [user_id] of 5 and of 21 characters,
    "abc 123456" with a valid and with a short password, a password with
    a space, an empty body and a [null] password, and a [user_id] already
    in the store. *)
Lemma signup_validation_order_witness :
  signup1 salt short_id_body ∅
  = (creation_failed "Input length is incorrect", ∅)
  ∧ signup1 salt long_id_body ∅
    = (creation_failed "Input length is incorrect", ∅)
  ∧ signup1 salt spaced_id_body ∅
    = (creation_failed "Incorrect character pattern", ∅)
  ∧ signup1 salt empty_body ∅
    = (creation_failed "Required user_id and password", ∅)
  ∧ signup1 salt signup_body users1
    = (creation_failed "Already same user_id is used", users1)
  ∧ signup1 salt short_password_body ∅
    = (creation_failed "Input length is incorrect", ∅)
  ∧ signup1 salt spaced_password_body ∅
    = (creation_failed "Incorrect character pattern", ∅)
  ∧ signup1 salt null_password_body ∅
    = (creation_failed "Required user_id and password", ∅).
Proof.
  refine (conj _ (conj _ (conj _ (conj _ (conj _ (conj _ (conj _ _))))))).
  - destruct (signup_validation_order plain_hash never never salt
                short_id_body ∅) as (_ & _ & Hlen & _).
    apply (Hlen (lit "abcde") (str "Passw0rd!"));
      [reflexivity | reflexivity | reflexivity | by left].
  - destruct (signup_validation_order plain_hash never never salt
                long_id_body ∅) as (_ & _ & Hlen & _).
    apply (Hlen (lit "abcdefghijklmnopqrstu") (str "Passw0rd!"));
      [reflexivity | reflexivity | reflexivity | by right].
  - destruct (signup_validation_order plain_hash never never salt
                spaced_id_body ∅) as (_ & _ & _ & Hpat).
    apply (Hpat (lit "Passw0rd!")); [reflexivity | reflexivity |].
    vm_compute. lia.
  - destruct (signup_validation_order plain_hash never never salt
                empty_body ∅) as (Hreq & _).
    apply Hreq. left. reflexivity.
  - destruct (signup_validation_order plain_hash never never salt
                signup_body users1) as (_ & Hstr & _).
    destruct (Hstr (lit "validUser1") (lit "Passw0rd!"))
      as (_ & _ & Hdup & _); [reflexivity | reflexivity | done | done |].
    apply Hdup; [vm_compute; lia | vm_compute; lia | reflexivity
                | reflexivity |].
    exists validUser1. reflexivity.
  - destruct (signup_validation_order plain_hash never never salt
                short_password_body ∅) as (_ & Hstr & _).
    destruct (Hstr (lit "abc 123456") (lit "short"))
      as (Hlen & _); [reflexivity | reflexivity | done | done |].
    apply Hlen. right. right. left. vm_compute. lia.
  - destruct (signup_validation_order plain_hash never never salt
                spaced_password_body ∅) as (_ & Hstr & _).
    destruct (Hstr (lit "validUser1") (lit "Pass w0rd!"))
      as (_ & Hpat & _); [reflexivity | reflexivity | done | done |].
    apply Hpat; [vm_compute; lia | vm_compute; lia |]. right. reflexivity.
  - destruct (signup_validation_order plain_hash never never salt
                null_password_body ∅) as (Hreq & _).
    apply Hreq. right. reflexivity.
Defined.

(** Updates on the store of [validUser1] and [TaroYamada]: without a
    header, of a [user_id] that is not stored, and of the other user. *)
Lemma patch_user_check_order_witness :
  patch_user1 None (lit "validUser1") (nickname_body (lit "Bob")) users2
  = (Respond (Response 401 "Authentication failed" None None), users2)
  ∧ patch_user1 validUser1_header (lit "nobody01") (nickname_body (lit "Bob"))
      users2
    = (Respond (Response 404 "No user found" None None), users2)
  ∧ patch_user1 validUser1_header (lit "TaroYamada")
      (nickname_body (lit "Bob")) users2
    = (Respond (Response 403 "No permission for update" None None), users2).
Proof.
  refine (conj _ (conj _ _)).
  - destruct (patch_user_check_order plain_compare base64_ascii None
                (lit "validUser1") (nickname_body (lit "Bob")) users2)
      as (H & _ & _).
    apply H. reflexivity.
  - destruct (patch_user_check_order plain_compare base64_ascii
                validUser1_header (lit "nobody01")
                (nickname_body (lit "Bob")) users2) as (_ & H & _).
    apply (H validUser1); by vm_compute.
  - destruct (patch_user_check_order plain_compare base64_ascii
                validUser1_header (lit "TaroYamada")
                (nickname_body (lit "Bob")) users2) as (_ & _ & H).
    eapply (H validUser1); [by vm_compute | by vm_compute | done].
Defined.

(** The owner sends [{"user_id": null}], which has neither [nickname]
    nor [comment], and then [{}]. *)
Lemma patch_user_forbidden_keys_first_witness :
  patch_user1 validUser1_header (lit "validUser1") forbidden_body users2
  = (Respond (Response 400 "User updation failed"
                (Some "Not updatable user_id and password") None),
     users2)
  ∧ patch_user1 validUser1_header (lit "validUser1") empty_body users2
    = (Respond (Response 400 "User updation failed"
                  (Some "Required nickname or comment") None),
       users2).
Proof.
  refine (conj _ _).
  - destruct (patch_user_forbidden_keys_first plain_compare base64_ascii
                validUser1_header (lit "validUser1") forbidden_body users2
                validUser1 validUser1) as [H _]; [by vm_compute ..|].
    eapply H; [reflexivity|]. left. exists JNull. by vm_compute.
  - destruct (patch_user_forbidden_keys_first plain_compare base64_ascii
                validUser1_header (lit "validUser1") empty_body users2
                validUser1 validUser1) as [_ H]; [by vm_compute ..|].
    apply H; by vm_compute.
Defined.

(** [validUser1] signs up without a comment and sets its nickname to
    "Bob". *)
Lemma update_after_signup_emits_null_comment_witness :
  ∃ v users'',
    patch_user1 validUser1_header (lit "validUser1")
      (nickname_body (lit "Bob")) users1
    = (Respond (Response 200 "User successfully updated" None (Some v)),
       users'')
    ∧ view_comment v = Some JNull.
Proof.
  apply (update_after_signup_emits_null_comment plain_hash plain_compare
           base64_ascii never never salt signup_body ∅ created users1
           validUser1_header validUser1 (lit "validUser1") (lit "Bob")).
  - by vm_compute.
  - reflexivity.
  - by vm_compute.
  - by vm_compute.
  - by vm_compute.
  - reflexivity.
  - by vm_compute.
Defined.

(** Retrievals of the stored [TaroYamada]: no header, a Bearer header, a
    payload without a colon, credentials of a user that is not stored, and
    a wrong password. *)
Lemma get_user_unauthenticated_witness :
  get_user1 None (lit "TaroYamada") users2
  = (Respond (Response 401 "Authentication failed" None None), users2)
  ∧ get_user1 (Some (lit "Bearer dmFsaWRVc2VyMTpQYXNzdzByZCE="))
      (lit "TaroYamada") users2
    = (Respond (Response 401 "Authentication failed" None None), users2)
  ∧ get_user1 (Some (lit "Basic dmFsaWRVc2VyMQ==")) (lit "TaroYamada") users2
    = (Respond (Response 401 "Authentication failed" None None), users2)
  ∧ get_user1 validUser1_header (lit "TaroYamada") ∅
    = (Respond (Response 401 "Authentication failed" None None), ∅)
  ∧ get_user1 (Some (lit "Basic dmFsaWRVc2VyMTp3cm9uZw==")) (lit "TaroYamada")
      users2
    = (Respond (Response 401 "Authentication failed" None None), users2).
Proof.
  refine (conj _ (conj _ (conj _ (conj _ _)))).
  - apply get_user_unauthenticated. by left.
  - apply get_user_unauthenticated. right. left.
    eexists. split; [reflexivity | by vm_compute].
  - apply get_user_unauthenticated. right. right. left.
    eexists. split; [reflexivity | by vm_compute].
  - apply get_user_unauthenticated. right. right. right. left.
    exists (Credentials (lit "validUser1") (lit "Passw0rd!")).
    split; by vm_compute.
  - apply get_user_unauthenticated. right. right. right. right.
    exists (Credentials (lit "validUser1") (lit "wrong")), validUser1.
    refine (conj _ (conj _ _)); by vm_compute.
Defined.

(** [validUser1] closes its account and then tries to retrieve it. *)
Lemma close_removes_principal_witness :
  keyed_by_user_id users2
  ∧ auth1 validUser1_header users2 = Some validUser1
  ∧ close1 validUser1_header users2
    = (Respond (Response 200 "Account and user successfully removed"
                  None None),
       delete (KStr (lit "validUser1")) users2)
  ∧ get_user1 validUser1_header (lit "validUser1")
      (delete (KStr (lit "validUser1")) users2)
    = (Respond (Response 401 "Authentication failed" None None),
       delete (KStr (lit "validUser1")) users2).
Proof.
  assert (auth1 validUser1_header users2 = Some validUser1) as Ha
    by (by vm_compute).
  destruct (close_removes_principal plain_compare base64_ascii
              validUser1_header users2 validUser1 users2_keyed Ha)
    as (Hclose & _ & _ & _ & Hget & _).
  refine (conj users2_keyed (conj Ha (conj Hclose _))).
  apply Hget.
Defined.

(** A rejected signup and a rejected update on the store of
    [validUser1] and [TaroYamada]. *)
Lemma bad_request_leaves_store_witness :
  (signup1 salt short_id_body users2).2 = users2
  ∧ (patch_user1 validUser1_header (lit "validUser1") forbidden_body users2).2
    = users2.
Proof.
  destruct (bad_request_leaves_store plain_hash plain_compare base64_ascii
              never never) as [Hs Hp].
  refine (conj _ _).
  - apply (Hs salt short_id_body users2
             (Response 400 "Account creation failed"
                (Some "Input length is incorrect") None)).
    + by vm_compute.
    + reflexivity.
  - apply (Hp validUser1_header (lit "validUser1") forbidden_body users2
             (Response 400 "User updation failed"
                (Some "Not updatable user_id and password") None)).
    + by vm_compute.
    + reflexivity.
Defined.

(** An update and a close by [validUser1] leave every other key of the
    store of [validUser1] and [TaroYamada] as it was. *)
Lemma requests_touch_one_record_witness :
  keyed_by_user_id users2
  ∧ (∀ k, k ≠ KStr (lit "validUser1") →
       (patch_user1 validUser1_header (lit "validUser1")
          (nickname_body (lit "Bob")) users2).2 !! k
       = users2 !! k)
  ∧ (∀ k, k ≠ KStr (lit "validUser1") →
       (close1 validUser1_header users2).2 !! k = users2 !! k).
Proof.
  destruct (requests_touch_one_record plain_hash plain_compare base64_ascii
              never never users2 users2_reachable)
    as (Hk & _ & Hpatch & _ & _ & Hclose & _).
  refine (conj Hk (conj _ _)).
  - apply Hpatch.
  - apply (Hclose validUser1_header validUser1
             (Credentials (lit "validUser1") (lit "Passw0rd!")));
      by vm_compute.
Defined.

(** The two responses in full. *)
Example retrieval_after_signup_response :
  get_user1 validUser1_header (lit "validUser1") users1
  = (reply_user 200 "User details by user_id"
       (UserView (str "validUser1") (str "validUser1") (Some JNull)),
     users1).
Proof. by vm_compute. Qed.

Example update_after_signup_response :
  (patch_user1 validUser1_header (lit "validUser1")
     (nickname_body (lit "Bob")) users1).1
  = reply_user 200 "User successfully updated"
      (UserView (str "validUser1") (str "Bob") (Some JNull)).
Proof. by vm_compute. Qed.

(** ** The further properties on concrete requests *)

Abbreviation handle1 :=
  (handle plain_hash plain_compare base64_ascii never never).

Lemma users1_keyed : keyed_by_user_id users1.
Proof.
  apply (signup_keyed plain_hash never never salt signup_body ∅).
  exact keyed_empty.
Qed.

(** The signup of [validUser1] on the empty store is accepted. *)
Lemma signup_strings_accepted_iff_witness :
  ∃ r, (signup1 salt signup_body ∅).1 = Respond r
       ∧ (status r = 200%nat ∨ status r = 400%nat)
       ∧ (status r = 200%nat
          ↔ valid_id (lit "validUser1") = true
            ∧ valid_password (lit "Passw0rd!") = true
            ∧ (∅ : store) !! KStr (lit "validUser1") = None).
Proof.
  apply (signup_strings_accepted_iff plain_hash never never salt signup_body
           ∅ (lit "validUser1") (lit "Passw0rd!")); by vm_compute.
Defined.

(** The signup of [validUser1] changes the empty store, with a 200. *)
Lemma store_changes_only_with_200_witness :
  ∃ r, (handle1 (PostSignup salt signup_body) ∅).1 = Respond r
       ∧ status r = 200%nat.
Proof.
  apply (store_changes_only_with_200 plain_hash plain_compare base64_ascii
           never never (PostSignup salt signup_body) ∅).
  intros Heq.
  assert ((handle1 (PostSignup salt signup_body) ∅).2
            !! KStr (lit "validUser1") = None) as Hnone
    by (by rewrite Heq).
  by vm_compute in Hnone.
Defined.

(** A second signup of [validUser1], with another password. *)
Lemma signup_taken_user_id_rejected_witness :
  (signup1 salt colon_body users1).2 = users1
  ∧ ∀ r, (signup1 salt colon_body users1).1 = Respond r →
         status r = 400%nat.
Proof.
  apply (signup_taken_user_id_rejected plain_hash never never salt colon_body
           users1 (str "validUser1") (KStr (lit "validUser1")) validUser1);
    by vm_compute.
Defined.

(** The record of [validUser1] in the store of the two users. *)
Lemma stored_user_id_valid_witness :
  valid_id (key_string (user_id validUser1)) = true
  ∧ (6 ≤ length (key_string (user_id validUser1)) ≤ 20)%nat
  ∧ 58%N ∉ key_string (user_id validUser1).
Proof.
  apply (stored_user_id_valid plain_hash plain_compare base64_ascii never
           never users2 (KStr (lit "validUser1")) validUser1).
  - exact users2_reachable.
  - by vm_compute.
Defined.

(** [validUser1] signs up with the password "Pass:w0rd!" and logs in. *)
Lemma signup_then_authenticate_witness :
  ∃ me,
    authUserAsync plain_compare base64_ascii (Some colon_header)
      (signup1 salt colon_body ∅).2 = Some me
    ∧ (signup1 salt colon_body ∅).2 !! KStr (lit "validUser1") = Some me
    ∧ user_id me = KStr (lit "validUser1").
Proof.
  destruct (signup_then_authenticate plain_hash plain_compare base64_ascii
              never never salt colon_body ∅ created
              (signup1 salt colon_body ∅).2 (lit "validUser1") colon_header)
    as (p & me & Hp & Hauth); [reflexivity ..|].
  assert (p = lit "Pass:w0rd!") as ->.
  { vm_compute in Hp. by injection Hp. }
  exists me. apply Hauth; by vm_compute.
Defined.

(** The signup of the number 123456 is accepted and leaves a record that
    nothing can reach. *)
Lemma number_keyed_record_is_stranded_witness :
  (signup1 salt number_body ∅).1
  = reply_user 200 "Account successfully created"
      (UserView (JNum (lit "123456")) (JNum (lit "123456")) None)
  ∧ ∀ req, (handle1 req (signup1 salt number_body ∅).2)
             .2 !! KNum (lit "123456")
           = Some (User (KNum (lit "123456"))
                     (plain_hash salt (lit "Passw0rd!"))
                     (Some (JNum (lit "123456"))) (Some JNull)).
Proof.
  split; [by vm_compute|].
  eapply (number_keyed_record_is_stranded plain_hash plain_compare
            base64_ascii never never (signup1 salt number_body ∅).2).
  - apply (signup_keyed plain_hash never never salt number_body ∅).
    exact keyed_empty.
  - by vm_compute.
Defined.

(** [validUser1] still logs in after [TaroYamada] changed its own
    nickname. *)
Lemma header_keeps_authenticating_witness :
  (∃ me', auth1 validUser1_header
            (handle1 (PatchUser TaroYamada_header (lit "TaroYamada")
                        (nickname_body (lit "Bob"))) users2).2 = Some me'
          ∧ user_id me' = user_id validUser1
          ∧ passwordHash me' = passwordHash validUser1)
  ∨ (∃ a' me2, PatchUser TaroYamada_header (lit "TaroYamada")
                 (nickname_body (lit "Bob")) = PostClose a'
               ∧ auth1 a' users2 = Some me2
               ∧ user_id me2 = user_id validUser1).
Proof.
  apply (header_keeps_authenticating plain_hash plain_compare base64_ascii
           never never validUser1_header users2 validUser1).
  - exact users2_keyed.
  - by vm_compute.
Defined.

(** [validUser1] sets its nickname to "Bob" twice. *)
Lemma patch_user_idempotent_witness :
  patch_user1 validUser1_header (lit "validUser1") (nickname_body (lit "Bob"))
    (patch_user1 validUser1_header (lit "validUser1")
       (nickname_body (lit "Bob")) users2).2
  = (reply_user 200 "User successfully updated"
       (UserView (str "validUser1") (str "Bob") (Some JNull)),
     (patch_user1 validUser1_header (lit "validUser1")
        (nickname_body (lit "Bob")) users2).2).
Proof.
  apply (patch_user_idempotent plain_compare base64_ascii validUser1_header
           (lit "validUser1") (nickname_body (lit "Bob")) users2).
  - exact users2_keyed.
  - reflexivity.
  - reflexivity.
Defined.

(** [validUser1] sets its nickname to "Bob" and clears its comment;
    [TaroYamada] then retrieves the record. *)
Lemma update_then_retrieve_witness :
  ∃ v, get_user1 TaroYamada_header (lit "validUser1")
         (patch_user1 validUser1_header (lit "validUser1") both_body users2).2
       = (reply_user 200 "User details by user_id" v,
          (patch_user1 validUser1_header (lit "validUser1") both_body
             users2).2)
       ∧ view_nickname v = str "Bob"
       ∧ view_comment v = None.
Proof.
  destruct (update_then_retrieve plain_compare base64_ascii validUser1_header
              (lit "validUser1") both_body users2
              (Response 200 "User successfully updated" None
                 (Some (UserView (str "validUser1") (str "Bob")
                          (Some (JStr [])))))
              (patch_user1 validUser1_header (lit "validUser1") both_body
                 users2).2
              TaroYamada_header TaroYamada)
    as (v & Hget & Hnick & _ & Hcom); [reflexivity ..|].
  exists v. refine (conj Hget (conj _ _)).
  - apply (Hnick (lit "Bob")); by vm_compute.
  - apply Hcom. by vm_compute.
Defined.

(** [validUser1] closes its account and signs up again with another
    password. *)
Lemma close_then_signup_again_witness :
  ∃ u',
    signup1 salt colon_body (close1 validUser1_header users2).2
    = (reply_user 200 "Account successfully created"
         (UserView (str "validUser1") (str "validUser1") None),
       <[KStr (lit "validUser1") := u']>
         (delete (KStr (lit "validUser1")) users2))
    ∧ user_id u' = KStr (lit "validUser1")
    ∧ passwordHash u' = plain_hash salt (lit "Pass:w0rd!").
Proof.
  apply (close_then_signup_again plain_hash plain_compare base64_ascii never
           never validUser1_header users2 validUser1 salt colon_body
           (lit "Pass:w0rd!")).
  - exact users2_reachable.
  - by vm_compute.
  - by vm_compute.
  - by vm_compute.
  - by vm_compute.
Defined.

(** A signup with the number 42 as nickname and a comment of two lines,
    then the retrieval of the new account by its owner. *)
Lemma signup_fields_unvalidated_witness :
  ∃ v, get_user1 validUser1_header (lit "validUser1")
         (signup1 salt unchecked_body ∅).2
       = (reply_user 200 "User details by user_id" v,
          (signup1 salt unchecked_body ∅).2)
       ∧ view_nickname v = JNum (lit "42")
       ∧ view_comment v = Some (JStr (lit "a" ++ [10%N] ++ lit "b"))
       ∧ field_invalid (Some (JNum (lit "42"))) 30 = true
       ∧ field_invalid (Some (JStr (lit "a" ++ [10%N] ++ lit "b"))) 100
         = true.
Proof.
  destruct (signup_fields_unvalidated plain_hash plain_compare base64_ascii
              never never salt unchecked_body ∅ created
              (signup1 salt unchecked_body ∅).2 (lit "validUser1")
              validUser1_header
              (User (KStr (lit "validUser1"))
                 (plain_hash salt (lit "Passw0rd!"))
                 (Some (JNum (lit "42")))
                 (Some (JStr (lit "a" ++ [10%N] ++ lit "b")))))
    as (v & Hget & Hnick & Hcom); [reflexivity ..|].
  exists v. refine (conj Hget (conj _ (conj _ (conj _ _)))).
  - apply Hnick; by vm_compute.
  - apply Hcom; by vm_compute.
  - reflexivity.
  - reflexivity.
Defined.

(** "bAsIc", two spaces, the payload of [validUser1] and a trailing tab. *)
Lemma parseBasicAuth_scheme_and_spaces_witness :
  parseBasicAuth base64_ascii
    (Some (lit "bAsIc" ++ lit "  " ++ lit "dmFsaWRVc2VyMTpQYXNzdzByZCE="
           ++ [9%N]))
  = parseBasicAuth base64_ascii
      (Some (lit "Basic" ++ lit "dmFsaWRVc2VyMTpQYXNzdzByZCE=")).
Proof.
  apply (parseBasicAuth_scheme_and_spaces base64_ascii (lit "bAsIc")
           (lit "  ") (lit "dmFsaWRVc2VyMTpQYXNzdzByZCE=") [9%N]);
    by vm_compute.
Defined.

(** [validUser1] may not update [TaroYamada] but may read it. *)
Lemma forbidden_update_is_readable_witness :
  ∃ u, users2 !! KStr (lit "TaroYamada") = Some u
       ∧ get_user1 validUser1_header (lit "TaroYamada") users2
         = (reply_user 200 "User details by user_id"
              (UserView (key_json (user_id u))
                 (effective_nickname u) (retrieved_comment u)),
            users2).
Proof.
  apply (forbidden_update_is_readable plain_compare base64_ascii
           validUser1_header (lit "TaroYamada") (nickname_body (lit "Bob"))
           users2 (Response 403 "No permission for update" None None)).
  - by vm_compute.
  - reflexivity.
Defined.

(** The retrieval of [TaroYamada], whose stored nickname the owner has
    reset with the empty string. *)
Lemma response_nickname_never_empty_witness :
  view_nickname
    (UserView (str "TaroYamada") (str "TaroYamada") None) ≠ JStr [].
Proof.
  apply (response_nickname_never_empty plain_hash plain_compare base64_ascii
           never never
           (handle1 (PatchUser TaroYamada_header (lit "TaroYamada")
                       (nickname_body [])) users2).2
           (GetUser validUser1_header (lit "TaroYamada"))
           (Response 200 "User details by user_id" None
              (Some (UserView (str "TaroYamada") (str "TaroYamada") None)))).
  - apply reach_handle. exact users2_reachable.
  - by vm_compute.
  - reflexivity.
Defined.

(** The update of [validUser1]'s nickname to "Bob" by its owner meets the
    conditions and is accepted. *)
Lemma patch_user_accepted_iff_witness :
  ∃ r users',
    patch_user1 validUser1_header (lit "validUser1")
      (nickname_body (lit "Bob")) users2 = (Respond r, users')
    ∧ status r = 200%nat.
Proof.
  apply (patch_user_accepted_iff plain_compare base64_ascii validUser1_header
           (lit "validUser1") (nickname_body (lit "Bob")) users2
           users2_keyed).
  refine (conj _ (conj _ (conj _ (conj _ (conj _ _))))).
  - exists validUser1. split; by vm_compute.
  - by vm_compute.
  - by vm_compute.
  - left. exists (str "Bob"). by vm_compute.
  - intros v Hv. exists (lit "Bob"). split.
    + vm_compute in Hv. injection Hv as <-. by vm_compute.
    + right. split; [by vm_compute | vm_compute; lia].
  - intros v Hv. by vm_compute in Hv.
Defined.

(** A signup and an update by the owner whose body is the array
    [[null]]. *)
Lemma non_object_body_is_empty_witness :
  signup1 salt array_body users2
  = (creation_failed "Required user_id and password", users2)
  ∧ patch_user1 validUser1_header (lit "validUser1") array_body users2
    = (updation_failed "Required nickname or comment", users2).
Proof.
  destruct (non_object_body_is_empty plain_hash plain_compare base64_ascii
              never never salt validUser1_header (lit "validUser1")
              array_body users2 validUser1 validUser1) as [Hs Hp];
    [done|].
  refine (conj Hs _). apply Hp; by vm_compute.
Defined.
